(** * RecruiterAI front end: permission store, REST client and live-update hook

    A shallow embedding of the client-side core of the RecruiterAI dashboard:

    - [contexts/PermissionContext] : the permission store ([PermissionProvider],
      [usePermissions], [withPermission]);
    - [services/api] and [services/auth] : the axios client with its request
      and response interceptors, and the session helpers over [localStorage];
    - [hooks/useWebSocket] : the live-update hook;
    - the [lastMessage] effects of [ScreeningPage] and [JobsPage].

    React state is modelled by explicit state passing: a function of the
    source that calls state setters returns the list of calls it makes, in
    program order, and the list is then applied to the component state.  An
    [async] function is cut at its [await]: one definition for the part that
    runs synchronously, one for the continuation that runs when the promise
    settles. *)

From stdpp Require Import gmap strings list fin_maps pretty.
From Stdlib Require Import ZArith Ascii.

Set Warnings "-register-all".
Local Open Scope Z_scope.

(* ===================================================================== *)
(** ** JavaScript values *)
(* ===================================================================== *)

Module JS.

(** The values the modelled code handles: what [JSON.parse] and axios hand
    over, plus [undefined] and the built-in members a property read can
    reach through a prototype.  Numbers are the integer-valued ones. *)
Inductive jsval : Type :=
  | VUndefined
  | VNull
  | VBool (b : bool)
  | VNum (n : Z)
  | VStr (s : string)
  | VObj (fields : gmap string jsval)
  | VArr (items : list jsval)
  | VBuiltin (name : string).

(** The built-in prototype objects a property read falls back to. *)
Inductive proto : Type :=
  | ObjectPrototype
  | ArrayPrototype
  | StringPrototype
  | NumberPrototype
  | BooleanPrototype
  | FunctionPrototype.

(** What the browser provides and the repository does not define: the
    member names of the built-in prototypes, [JSON.parse], which either
    returns a value or throws a [SyntaxError] ([None]), and
    [encodeURIComponent]. *)
Class Platform : Type := {
  proto_has : proto -> string -> bool;
  JSON_parse : string -> option jsval;
  encodeURIComponent : string -> string
}.

(** [ToBoolean]: the falsy values are [undefined], [null], [false], [0]
    and the empty string. *)
Definition truthy (v : jsval) : bool :=
  match v with
  | VUndefined | VNull => false
  | VBool b => b
  | VNum n => negb (n =? 0)
  | VStr s => negb (String.eqb s EmptyString)
  | VObj _ | VArr _ | VBuiltin _ => true
  end.

(** A member inherited from a built-in prototype, or [undefined]. *)
Definition from_proto `{Platform} (p : proto) (k : string) : jsval :=
  if proto_has p k then VBuiltin k else VUndefined.

(** Element [k] of an array whose first element has index [i], when [k] is
    the decimal spelling of an index in range. *)
Fixpoint index_get (i : nat) (items : list jsval) (k : string) : option jsval :=
  match items with
  | [] => None
  | x :: rest => if String.eqb (pretty i) k then Some x else index_get (S i) rest k
  end.

(** The one-character string at index [k] of a string. *)
Fixpoint char_get (i : nat) (s : string) (k : string) : option jsval :=
  match s with
  | EmptyString => None
  | String c rest =>
      if String.eqb (pretty i) k then Some (VStr (String c EmptyString))
      else char_get (S i) rest k
  end.

(** The property read [v[k]].  [None] is the [TypeError] thrown when [v]
    is [undefined] or [null]. *)
Definition get_prop `{Platform} (v : jsval) (k : string) : option jsval :=
  match v with
  | VUndefined | VNull => None
  | VObj fields =>
      Some (match fields !! k with
            | Some x => x
            | None => from_proto ObjectPrototype k
            end)
  | VArr items =>
      Some (match index_get 0 items k with
            | Some x => x
            | None =>
                if String.eqb k "length" then VNum (Z.of_nat (length items))
                else from_proto ArrayPrototype k
            end)
  | VStr s =>
      Some (match char_get 0 s k with
            | Some x => x
            | None =>
                if String.eqb k "length" then VNum (Z.of_nat (String.length s))
                else from_proto StringPrototype k
            end)
  | VNum _ => Some (from_proto NumberPrototype k)
  | VBool _ => Some (from_proto BooleanPrototype k)
  | VBuiltin _ => Some (from_proto FunctionPrototype k)
  end.

(** Optional chaining [v?.k]: [undefined] when [v] is [undefined] or
    [null], never a throw. *)
Definition get_opt `{Platform} (v : jsval) (k : string) : jsval :=
  match get_prop v k with
  | Some x => x
  | None => VUndefined
  end.

(** Strict equality [a === b] of two values that are not the same object:
    primitives compare by value, distinct objects are never equal.  In the
    modelled code the right operand is a literal, or the operands come
    from different payloads. *)
Definition strict_eq (a b : jsval) : bool :=
  match a, b with
  | VUndefined, VUndefined => true
  | VNull, VNull => true
  | VBool x, VBool y => Bool.eqb x y
  | VNum x, VNum y => x =? y
  | VStr x, VStr y => String.eqb x y
  | VBuiltin x, VBuiltin y => String.eqb x y
  | _, _ => false
  end.

(** [Object.is(old, fresh)] as React uses it to compare a state cell or
    a dependency with a value that was just produced by [JSON.parse]:
    primitives compare by value, a freshly parsed object or array is
    identical to nothing that existed before. *)
Definition Object_is_fresh (old fresh : jsval) : bool := strict_eq old fresh.

(** [s.replace(pat, rep)] with a string pattern: the first occurrence of
    [pat] is replaced. *)
Fixpoint replace (pat rep s : string) : string :=
  if String.prefix pat s
  then rep +:+ String.substring (String.length pat) (String.length s) s
  else match s with
       | EmptyString => EmptyString
       | String c rest => String c (replace pat rep rest)
       end.

End JS.
Import JS.

(* ===================================================================== *)
(** ** Browser storage and location *)
(* ===================================================================== *)

Module Browser.

(** [localStorage] maps string keys to string values; [window.location.href]
    is the address the tab shows. *)
Record browser : Type := {
  localStorage : gmap string string;
  location_href : string
}.

(** [localStorage.getItem(k)]: the stored string, or [null] ([None]). *)
Definition getItem (b : browser) (k : string) : option string :=
  localStorage b !! k.

Definition setItem (k v : string) (b : browser) : browser :=
  {| localStorage := <[k := v]> (localStorage b);
     location_href := location_href b |}.

Definition removeItem (k : string) (b : browser) : browser :=
  {| localStorage := delete k (localStorage b);
     location_href := location_href b |}.

Definition navigate (href : string) (b : browser) : browser :=
  {| localStorage := localStorage b; location_href := href |}.

(** Truthiness of a [getItem] result: [null] and the empty string are
    falsy. *)
Definition item_truthy (item : option string) : bool :=
  match item with
  | None => false
  | Some s => negb (String.eqb s EmptyString)
  end.

End Browser.
Import Browser.

(* ===================================================================== *)
(** ** services/auth: session helpers *)
(* ===================================================================== *)

Module Auth.

(** [getToken = () => localStorage.getItem('token')] *)
Definition getToken (b : browser) : option string := getItem b "token".

(** [isAuthenticated = () => !!getToken()] *)
Definition isAuthenticated (b : browser) : bool := item_truthy (getToken b).

(** [logout]: removes the token, then the cached profile. *)
Definition logout (b : browser) : browser :=
  removeItem "user" (removeItem "token" b).

End Auth.

(* ===================================================================== *)
(** ** services/api: the axios instance and its interceptors *)
(* ===================================================================== *)

Module Api.

Record config : Type := {
  method : string;
  url : string;
  headers : gmap string string
}.

Record response : Type := {
  status : Z;
  data : jsval
}.

(** What a rejected call carries: an axios error, with the response when
    the server answered. *)
Inductive error : Type :=
  | AxiosError (resp : option response).

(** What the transport does with a request: the server answers, or the
    request fails without an answer (network error). *)
Inductive transport : Type :=
  | Answered (r : response)
  | NoAnswer.

(** A settled promise. *)
Inductive settled (A : Type) : Type :=
  | Fulfilled (x : A)
  | Rejected (e : error).
Arguments Fulfilled {A} x.
Arguments Rejected {A} e.

(** [axios.create({ baseURL, headers: { 'Content-Type': 'application/json' } })] *)
Definition defaults : gmap string string :=
  {[ "Content-Type" := "application/json" ]}.

(** axios merges the headers of a call over the instance defaults. *)
Definition mergeConfig (cfg : config) : config :=
  {| method := method cfg; url := url cfg;
     headers := headers cfg ∪ defaults |}.

Definition set_header (k v : string) (cfg : config) : config :=
  {| method := method cfg; url := url cfg;
     headers := <[k := v]> (headers cfg) |}.

(** The request interceptor:
    [const token = localStorage.getItem('token');
     if (token) config.headers.Authorization = `Bearer ${token}`;
     return config;] *)
Definition request_interceptor (b : browser) (cfg : config) : config :=
  match getItem b "token" with
  | Some token =>
      if item_truthy (Some token)
      then set_header "Authorization" ("Bearer " +:+ token) cfg
      else cfg
  | None => cfg
  end.

(** What leaves the client for a call made with [cfg]. *)
Definition send (b : browser) (cfg : config) : config :=
  request_interceptor b (mergeConfig cfg).

(** axios' default [validateStatus]; no call of the repository overrides
    it. *)
Definition validateStatus (st : Z) : bool := (200 <=? st) && (st <? 300).

(** axios settles the call before the response interceptors run. *)
Definition settle (t : transport) : settled response :=
  match t with
  | Answered r =>
      if validateStatus (status r) then Fulfilled r
      else Rejected (AxiosError (Some r))
  | NoAnswer => Rejected (AxiosError None)
  end.

(** [error.response?.status === 401] *)
Definition is_401 (e : error) : bool :=
  match e with
  | AxiosError (Some r) => status r =? 401
  | _ => false
  end.

(** The rejection handler of the response interceptor; it always rejects
    again with the same error. *)
Definition response_rejected (e : error) (b : browser) : browser :=
  if is_401 e
  then navigate "/login" (removeItem "user" (removeItem "token" b))
  else b.

(** The response interceptor pair: [(response) => response] on success,
    the handler above on failure. *)
Definition response_interceptor (s : settled response) (b : browser)
  : settled response * browser :=
  match s with
  | Fulfilled r => (Fulfilled r, b)
  | Rejected e => (Rejected e, response_rejected e b)
  end.

(** What the caller of [api.get] / [api.put] / ... observes. *)
Definition receive (t : transport) (b : browser) : settled response * browser :=
  response_interceptor (settle t) b.

(** [api.get(url)] *)
Definition get (u : string) : config :=
  {| method := "get"; url := u; headers := ∅ |}.

End Api.

(* ===================================================================== *)
(** ** contexts/PermissionContext: the permission store *)
(* ===================================================================== *)

Module PermissionContext.
Import Api.

(** The three [useState] cells of [PermissionProvider]. *)
Record store : Type := {
  permissions : jsval;
  role : jsval;
  loading : bool
}.

(** [useState(null)], [useState(null)], [useState(true)] *)
Definition initial : store :=
  {| permissions := VNull; role := VNull; loading := true |}.

(** What a run of [loadPermissions] does, in program order. *)
Inductive effect : Type :=
  | SetPermissions (v : jsval)
  | SetRole (v : jsval)
  | SetLoading (b : bool)
  | ConsoleError (msg : string).

Definition apply_effect (s : store) (e : effect) : store :=
  match e with
  | SetPermissions v =>
      {| permissions := v; role := role s; loading := loading s |}
  | SetRole v =>
      {| permissions := permissions s; role := v; loading := loading s |}
  | SetLoading b =>
      {| permissions := permissions s; role := role s; loading := b |}
  | ConsoleError _ => s
  end.

Definition run (es : list effect) (s : store) : store :=
  foldl apply_effect s es.

(** [loadPermissions] up to its [await].  Without a token it calls
    [setLoading(false)] and returns, and the [finally] block calls
    [setLoading(false)] once more on the way out; with a token it issues
    [api.get('/api/users/me/permissions')] and suspends.  The second
    component is the request in flight, if any. *)
Definition loadPermissions_start (b : browser) : list effect * option config :=
  let token := getItem b "token" in
  if negb (item_truthy token)
  then ([SetLoading false; SetLoading false], None)
  else ([], Some (send b (get "/api/users/me/permissions"))).

(** [loadPermissions] from the [await] on.  A fulfilled call is
    destructured to its [data]; reading [data.permissions] throws when
    [data] is [null] or [undefined], which lands in the [catch] like a
    rejected call.  The [finally] block ends every path. *)
Definition loadPermissions_resume `{Platform} (r : settled response)
  : list effect :=
  match r with
  | Fulfilled resp =>
      match get_prop (data resp) "permissions", get_prop (data resp) "role" with
      | Some p, Some r =>
          [SetPermissions p; SetRole r; SetLoading false]
      | Some p, None =>
          [SetPermissions p; ConsoleError "Failed to load permissions:";
           SetLoading false]
      | None, _ =>
          [ConsoleError "Failed to load permissions:"; SetLoading false]
      end
  | Rejected _ =>
      [ConsoleError "Failed to load permissions:"; SetLoading false]
  end.

(** The provider over time: its state cells and the number of permission
    fetches in flight. *)
Record provider : Type := {
  state : store;
  in_flight : nat
}.

(** [Load b]: [loadPermissions] is called (by the mount effect, or as
    [refreshPermissions]) while the browser is [b].  [Settle r]: one
    fetch in flight settles with [r]. *)
Inductive event : Type :=
  | Load (b : browser)
  | Settle (r : settled response).

Definition step `{Platform} (p : provider) (e : event) : provider :=
  match e with
  | Load b =>
      let '(es, req) := loadPermissions_start b in
      {| state := run es (state p);
         in_flight := match req with
                      | Some _ => S (in_flight p)
                      | None => in_flight p
                      end |}
  | Settle r =>
      match in_flight p with
      | O => p
      | S n => {| state := run (loadPermissions_resume r) (state p);
                  in_flight := n |}
      end
  end.

Definition steps `{Platform} (p : provider) (es : list event) : provider :=
  foldl step p es.

(** [useEffect(() => { loadPermissions(); }, [])] on the fresh provider. *)
Definition mount `{Platform} (b : browser) : provider :=
  step {| state := initial; in_flight := 0 |} (Load b).

(** [refreshPermissions: loadPermissions] *)
Definition refreshPermissions `{Platform} (b : browser) (p : provider)
  : provider :=
  step p (Load b).

(** [hasPermission]:
    [if (!permissions) return false; return permissions[action] === true;]
    The read cannot throw: a truthy value is neither [null] nor
    [undefined]. *)
Definition hasPermission `{Platform} (s : store) (action : string) : bool :=
  if negb (truthy (permissions s)) then false
  else match get_prop (permissions s) action with
       | Some v => strict_eq v (VBool true)
       | None => false
       end.

(** [Array.prototype.some]: the callback is applied from the left until
    it answers [true].  The second component lists the elements the
    callback was applied to. *)
Fixpoint some {A : Type} (f : A -> bool) (l : list A) : bool * list A :=
  match l with
  | [] => (false, [])
  | x :: rest =>
      if f x then (true, [x])
      else let '(r, seen) := some f rest in (r, x :: seen)
  end.

(** [Array.prototype.every]: the callback is applied from the left until
    it answers [false]. *)
Fixpoint every {A : Type} (f : A -> bool) (l : list A) : bool * list A :=
  match l with
  | [] => (true, [])
  | x :: rest =>
      if f x then let '(r, seen) := every f rest in (r, x :: seen)
      else (false, [x])
  end.

(** [actions.some(action => hasPermission(action))] *)
Definition hasAnyPermission `{Platform} (s : store) (actions : list string)
  : bool :=
  (some (hasPermission s) actions).1.

(** [actions.every(action => hasPermission(action))] *)
Definition hasAllPermissions `{Platform} (s : store) (actions : list string)
  : bool :=
  (every (hasPermission s) actions).1.

(** [role === 'admin'], [role === 'hr_manager'], [role === 'recruiter'] *)
Definition isAdmin (s : store) : bool := strict_eq (role s) (VStr "admin").
Definition isHRManager (s : store) : bool := strict_eq (role s) (VStr "hr_manager").
Definition isRecruiter (s : store) : bool := strict_eq (role s) (VStr "recruiter").

(** Where a component sits: its ancestors in the tree, nearest first. *)
Inductive ancestor : Type :=
  | PermissionProvider (value : store)
  | OtherComponent (name : string).

(** [useContext(PermissionContext)]: the value of the nearest enclosing
    provider, or the default of [createContext()], which is [undefined]
    ([None]). *)
Fixpoint useContext (ancestors : list ancestor) : option store :=
  match ancestors with
  | [] => None
  | PermissionProvider value :: _ => Some value
  | OtherComponent _ :: outer => useContext outer
  end.

(** A call either returns or throws an [Error] with a message. *)
Inductive result (A : Type) : Type :=
  | Return (x : A)
  | Throw (message : string).
Arguments Return {A} x.
Arguments Throw {A} message.

(** [usePermissions]: the provider's value is an object, so [!context]
    holds exactly for the default. *)
Definition usePermissions (ancestors : list ancestor) : result store :=
  match useContext ancestors with
  | None => Throw "usePermissions must be used within PermissionProvider"
  | Some context => Return context
  end.

(** React elements, as far as the gated views build them: a DOM element
    with its class and children, a text, [null], or the element of a
    component with its props. *)
Inductive element (C P : Type) : Type :=
  | Null
  | Text (s : string)
  | Dom (tag className : string) (children : list (element C P))
  | Render (component : C) (props : P).
Arguments Null {C P}.
Arguments Text {C P} s.
Arguments Dom {C P} tag className children.
Arguments Render {C P} component props.

(** The component elements an element contains. *)
Fixpoint rendered {C P : Type} (e : element C P) : list (C * P) :=
  match e with
  | Null | Text _ => []
  | Dom _ _ children => flat_map rendered children
  | Render c p => [(c, p)]
  end.

Definition loading_placeholder {C P : Type} : element C P :=
  Dom "div" "p-4 text-center" [Text "Loading..."].

Definition access_denied {C P : Type} : element C P :=
  Dom "div" "max-w-2xl mx-auto p-6"
    [Dom "div" "bg-red-50 border border-red-200 rounded-lg p-6 text-center"
       [Dom "h2" "text-2xl font-bold text-red-800 mb-2" [Text "Access Denied"];
        Dom "p" "text-red-600"
          [Text "You don't have permission to access this feature."]]].

(** [withPermission(Component, requiredPermission)], the component it
    returns, rendered with [props] below [ancestors]. *)
Definition withPermission `{Platform} {C P : Type}
    (Component : C) (requiredPermission : string)
    (props : P) (ancestors : list ancestor) : result (element C P) :=
  match usePermissions ancestors with
  | Throw m => Throw m
  | Return context =>
      if loading context then Return loading_placeholder
      else if negb (hasPermission context requiredPermission)
           then Return access_denied
           else Return (Render Component props)
  end.

(** [Can]: nothing while loading, the fallback when denied, the children
    when granted. *)
Definition Can `{Platform} {C P : Type}
    (action : string) (children fallback : element C P)
    (ancestors : list ancestor) : result (element C P) :=
  match usePermissions ancestors with
  | Throw m => Throw m
  | Return context =>
      if loading context then Return Null
      else if negb (hasPermission context action) then Return fallback
           else Return children
  end.

End PermissionContext.

(* ===================================================================== *)
(** ** hooks/useWebSocket: the live-update hook *)
(* ===================================================================== *)

Module UseWebSocket.

Inductive readyState : Type := CONNECTING | OPEN | CLOSING | CLOSED.

(** A [WebSocket] object: the address it was constructed with and its
    [readyState]. *)
Record WebSocket : Type := {
  ws_url : string;
  ws_readyState : readyState
}.

(** One instance of the hook: the socket its mount effect constructed
    (the closure variable [websocket]), the three state cells, and whether
    the calling component is still mounted.  The cell [ws] holds [null] or
    a reference to that same socket, so it is a flag here. *)
Record hook : Type := {
  websocket : WebSocket;
  ws : bool;
  isConnected : bool;
  lastMessage : jsval;
  mounted : bool
}.

Inductive setter : Type :=
  | SetWs
  | SetIsConnected (b : bool)
  | SetLastMessage (v : jsval).

(** The socket base address:
    [VITE_API_URL ? VITE_API_URL.replace('https://', 'wss://')
                                 .replace('http://', 'ws://')
                   : 'ws://localhost:8000'] *)
Definition wsUrl (VITE_API_URL : option string) : string :=
  match VITE_API_URL with
  | Some u =>
      if item_truthy (Some u)
      then replace "http://" "ws://" (replace "https://" "wss://" u)
      else "ws://localhost:8000"
  | None => "ws://localhost:8000"
  end.

(** [new WebSocket(`${wsUrl}/ws?token=${encodeURIComponent(token || '')}`)] *)
Definition connect `{Platform} (VITE_API_URL : option string) (b : browser)
  : WebSocket :=
  let token := Auth.getToken b in
  {| ws_url := wsUrl VITE_API_URL +:+ "/ws?token=" +:+
               encodeURIComponent (match token with
                                   | Some t => t
                                   | None => EmptyString
                                   end);
     ws_readyState := CONNECTING |}.

(** The hook on mount: the [useState] defaults and the socket of the
    mount effect. *)
Definition useWebSocket `{Platform} (VITE_API_URL : option string)
    (b : browser) : hook :=
  {| websocket := connect VITE_API_URL b;
     ws := false; isConnected := false; lastMessage := VNull;
     mounted := true |}.

(** [websocket.onopen] *)
Definition onopen : list setter := [SetIsConnected true; SetWs].

(** [websocket.onmessage]: [JSON.parse(event.data)], then
    [setLastMessage(data)]; a frame that does not parse throws before the
    setter is reached ([None]). *)
Definition onmessage `{Platform} (event_data : string) : option (list setter) :=
  match JSON_parse event_data with
  | Some data => Some [SetLastMessage data]
  | None => None
  end.

(** [websocket.onclose] *)
Definition onclose : list setter := [SetIsConnected false].

(** [websocket.onerror] only logs. *)
Definition onerror : list setter := [].

Definition apply_setter (h : hook) (s : setter) : hook :=
  match s with
  | SetWs =>
      {| websocket := websocket h; ws := true; isConnected := isConnected h;
         lastMessage := lastMessage h; mounted := mounted h |}
  | SetIsConnected b =>
      {| websocket := websocket h; ws := ws h; isConnected := b;
         lastMessage := lastMessage h; mounted := mounted h |}
  | SetLastMessage v =>
      {| websocket := websocket h; ws := ws h; isConnected := isConnected h;
         lastMessage := v; mounted := mounted h |}
  end.

(** State setters of an unmounted component do nothing. *)
Definition set_state (ss : list setter) (h : hook) : hook :=
  if mounted h then foldl apply_setter h ss else h.

Definition set_readyState (r : readyState) (h : hook) : hook :=
  {| websocket := {| ws_url := ws_url (websocket h); ws_readyState := r |};
     ws := ws h; isConnected := isConnected h;
     lastMessage := lastMessage h; mounted := mounted h |}.

(** The cleanup of the mount effect, run on unmount:
    [if (websocket.readyState === WebSocket.OPEN) websocket.close();] *)
Definition unmount (h : hook) : hook :=
  let h' := match ws_readyState (websocket h) with
            | OPEN => set_readyState CLOSING h
            | _ => h
            end in
  {| websocket := websocket h'; ws := ws h'; isConnected := isConnected h';
     lastMessage := lastMessage h'; mounted := false |}.


End UseWebSocket.

(* ===================================================================== *)
(** ** pages: the views that subscribe to the hook *)
(* ===================================================================== *)

Module Pages.
Import UseWebSocket.

(** What an effect of a page calls. *)
Inductive call : Type :=
  | LoadBatches
  | LoadPotentials (batchId : jsval)
  | LoadActivities (batchId : jsval)
  | LoadJobs
  | SetSelectedBatch (v : jsval).

(** The calls that issue a request to the REST layer. *)
Definition is_fetch (c : call) : bool :=
  match c with
  | SetSelectedBatch _ => false
  | _ => true
  end.

Definition fetches (cs : list call) : list call := filter (λ c, is_fetch c = true) cs.

(** [lastMessage?.type === t] *)
Definition type_is `{Platform} (lastMessage : jsval) (t : string) : bool :=
  strict_eq (get_opt lastMessage "type") (VStr t).

(** The [lastMessage] effect of [ScreeningPage].  [selectedBatch.id] is
    read only where [selectedBatch] is truthy, so the read cannot throw. *)
Definition ScreeningPage_effect `{Platform} (lastMessage selectedBatch : jsval)
  : list call :=
  (if type_is lastMessage "potential_promoted"
      || type_is lastMessage "potential_rejected"
   then
     if truthy selectedBatch
     then [LoadPotentials (get_opt selectedBatch "id");
           LoadActivities (get_opt selectedBatch "id")]
     else []
   else [])
  ++
  (if type_is lastMessage "batch_paused"
      || type_is lastMessage "batch_resumed"
      || type_is lastMessage "batch_cancelled"
      || type_is lastMessage "batch_deleted"
   then
     LoadBatches ::
     (if truthy selectedBatch
      then
        if type_is lastMessage "batch_deleted"
           && strict_eq (get_opt lastMessage "batch_id")
                        (get_opt selectedBatch "id")
        then [SetSelectedBatch VNull]
        else [LoadPotentials (get_opt selectedBatch "id")]
      else [])
   else []).

(** The [lastMessage] effect of [JobsPage]:
    [if (lastMessage?.type === 'job_created') loadJobs();] *)
Definition JobsPage_effect `{Platform} (lastMessage : jsval) : list call :=
  if type_is lastMessage "job_created" then [LoadJobs] else [].

(** The message types each effect looks for. *)
Definition ScreeningPage_types : list string :=
  ["potential_promoted"; "potential_rejected"; "batch_paused";
   "batch_resumed"; "batch_cancelled"; "batch_deleted"].

Definition JobsPage_types : list string := ["job_created"].

(** The pages and the state their [lastMessage] effect reads. *)
Inductive page : Type :=
  | ScreeningPage (selectedBatch : jsval)
  | JobsPage.

Definition types_of (pg : page) : list string :=
  match pg with
  | ScreeningPage _ => ScreeningPage_types
  | JobsPage => JobsPage_types
  end.

Definition effect `{Platform} (pg : page) (lastMessage : jsval) : list call :=
  match pg with
  | ScreeningPage selectedBatch => ScreeningPage_effect lastMessage selectedBatch
  | JobsPage => JobsPage_effect lastMessage
  end.

(** The effect's own state updates. *)
Definition apply_call (pg : page) (c : call) : page :=
  match pg, c with
  | ScreeningPage _, SetSelectedBatch v => ScreeningPage v
  | _, _ => pg
  end.

(** A mounted page: its state, its own instance of the hook
    ([const { lastMessage } = useWebSocket()]) and the calls its effects
    have made so far. *)
Record view : Type := {
  view_page : page;
  view_hook : hook;
  view_calls : list call
}.

(** The routes that mount the two pages. *)
Inductive route : Type := Screening | Jobs.

(** [useState(null)] for [selectedBatch]. *)
Definition initial_page (r : route) : page :=
  match r with
  | Screening => ScreeningPage VNull
  | Jobs => JobsPage
  end.

(** The calls of the mount effects: [loadBatches()] resp. [loadJobs()];
    the [lastMessage] effect also runs, with [lastMessage = null]. *)
Definition mount_calls `{Platform} (pg : page) : list call :=
  match pg with
  | ScreeningPage _ => [LoadBatches]
  | JobsPage => [LoadJobs]
  end ++ effect pg VNull.

Definition mount_view `{Platform} (VITE_API_URL : option string)
    (b : browser) (r : route) : view :=
  {| view_page := initial_page r;
     view_hook := useWebSocket VITE_API_URL b;
     view_calls := mount_calls (initial_page r) |}.

(** What the transport does to the socket of a view. *)
Inductive ws_event : Type :=
  | Opened
  | Message (event_data : string)
  | Closed
  | Errored.

Definition with_hook (h : hook) (v : view) : view :=
  {| view_page := view_page v; view_hook := h; view_calls := view_calls v |}.

(** One transport event on a view.  A message that parses sets
    [lastMessage]; when the new value differs from the old one React
    renders the page again and runs the effect whose dependency is
    [lastMessage]. *)
Definition deliver `{Platform} (v : view) (e : ws_event) : view :=
  let h := view_hook v in
  match e with
  | Opened => with_hook (set_state onopen (set_readyState OPEN h)) v
  | Closed => with_hook (set_state onclose (set_readyState CLOSED h)) v
  | Errored => with_hook (set_state onerror h) v
  | Message event_data =>
      match onmessage event_data with
      | None => v
      | Some ss =>
          let h' := set_state ss h in
          if mounted h && negb (Object_is_fresh (lastMessage h) (lastMessage h'))
          then
            let cs := effect (view_page v) (lastMessage h') in
            {| view_page := foldl apply_call (view_page v) cs;
               view_hook := h';
               view_calls := view_calls v ++ cs |}
          else with_hook h' v
      end
  end.

(** The mounted part of the application: its views, each with the socket
    its hook constructed. *)
Definition app : Type := list view.

Definition mount_page `{Platform} (VITE_API_URL : option string)
    (b : browser) (r : route) (a : app) : app :=
  a ++ [mount_view VITE_API_URL b r].

(** Unmounting the [i]-th view runs the cleanup of its hook. *)
Definition unmount_page (i : nat) (a : app) : app :=
  match a !! i with
  | Some v => <[i := with_hook (unmount (view_hook v)) v]> a
  | None => a
  end.

(** A transport event on the socket of the [i]-th view. *)
Definition deliver_to `{Platform} (i : nat) (e : ws_event) (a : app) : app :=
  match a !! i with
  | Some v => <[i := deliver v e]> a
  | None => a
  end.

(** The sockets constructed so far, and those still connecting or open. *)
Definition connections (a : app) : list WebSocket :=
  map (λ v, websocket (view_hook v)) a.

Definition is_live (w : WebSocket) : bool :=
  match ws_readyState w with
  | CONNECTING | OPEN => true
  | CLOSING | CLOSED => false
  end.

Definition live_connections (a : app) : list WebSocket :=
  filter (λ w, is_live w = true) (connections a).

(** What happens to the mounted application: a route mounts its page, a
    page is unmounted, or the transport acts on the socket of a page. *)
Inductive app_event : Type :=
  | MountPage (r : route)
  | UnmountPage (i : nat)
  | Transport (i : nat) (e : ws_event).

Definition app_step `{Platform} (VITE_API_URL : option string) (b : browser)
    (a : app) (ev : app_event) : app :=
  match ev with
  | MountPage r => mount_page VITE_API_URL b r a
  | UnmountPage i => unmount_page i a
  | Transport i e => deliver_to i e a
  end.

Definition app_run `{Platform} (VITE_API_URL : option string) (b : browser)
    (evs : list app_event) : app :=
  foldl (app_step VITE_API_URL b) [] evs.

Definition is_mount (ev : app_event) : bool :=
  match ev with
  | MountPage _ => true
  | _ => false
  end.

(** [ActivityPage.loadActivities] does not use the client: it calls the
    bare [axios.get('http://localhost:8000/api/activity', { headers:
    { Authorization: `Bearer ${token}` } })] with the token it read itself;
    a missing token is spelled [null] by the template. *)
Definition ActivityPage_request (b : browser) : Api.config :=
  {| Api.method := "get";
     Api.url := "http://localhost:8000/api/activity";
     Api.headers :=
       {[ "Authorization" :=
            "Bearer " +:+ match getItem b "token" with
                          | Some token => token
                          | None => "null"
                          end ]} |}.

(** The bare [axios] has no interceptor: a call settles and the browser is
    left as it is. *)
Definition axios_receive (t : Api.transport) (b : browser)
  : Api.settled Api.response * browser :=
  (Api.settle t, b).

End Pages.

(* ===================================================================== *)
(** ** Sample data *)
(* ===================================================================== *)

Module Samples.
Import Api PermissionContext UseWebSocket Pages.

Definition quote : string := String "034"%char EmptyString.

(** The text of the frame [{"type":"batch_paused","batch_id":7}]. *)
Definition frame_batch_paused : string :=
  "{" +:+ quote +:+ "type" +:+ quote +:+ ":" +:+ quote +:+ "batch_paused"
      +:+ quote +:+ "," +:+ quote +:+ "batch_id" +:+ quote +:+ ":7}".

(** The value it parses to. *)
Definition msg_batch_paused : jsval :=
  VObj {[ "type" := VStr "batch_paused"; "batch_id" := VNum 7 ]}.

(** A frame of a type no page looks for: [{"type":"heartbeat"}]. *)
Definition frame_heartbeat : string :=
  "{" +:+ quote +:+ "type" +:+ quote +:+ ":" +:+ quote +:+ "heartbeat"
      +:+ quote +:+ "}".

Definition msg_heartbeat : jsval := VObj {[ "type" := VStr "heartbeat" ]}.

(** The members of [Object.prototype]. *)
Definition Object_prototype_members : list string :=
  ["constructor"; "__proto__"; "hasOwnProperty"; "isPrototypeOf";
   "propertyIsEnumerable"; "toLocaleString"; "toString"; "valueOf";
   "__defineGetter__"; "__defineSetter__"; "__lookupGetter__";
   "__lookupSetter__"].

(** A platform for the examples: every prototype chain ends in
    [Object.prototype]; [JSON.parse] is given on the two sample frames;
    [encodeURIComponent] is given on strings of unreserved characters,
    which it leaves as they are. *)
Definition sample_platform : Platform :=
  {| proto_has := λ _ k, bool_decide (k ∈ Object_prototype_members);
     JSON_parse := λ text,
       if String.eqb text frame_batch_paused then Some msg_batch_paused
       else if String.eqb text frame_heartbeat then Some msg_heartbeat
       else None;
     encodeURIComponent := λ text, text |}.

(** The capability set [{view_candidates: true, manage_users: false}]. *)
Definition sample_caps : gmap string jsval :=
  {[ "view_candidates" := VBool true; "manage_users" := VBool false ]}.

(** The store after a load that returned [sample_caps] for an admin. *)
Definition sample_store : store :=
  {| permissions := VObj sample_caps; role := VStr "admin"; loading := false |}.

(** A browser session with a stored token and profile. *)
Definition sample_browser : browser :=
  {| localStorage := {[ "token" := "abc123"; "user" := "{}" ]};
     location_href := "/screening" |}.

Definition sample_batch : jsval := VObj {[ "id" := VNum 3 ]}.

(** The answer of [GET /api/users/me/permissions] for that admin. *)
Definition sample_response : response :=
  {| status := 200;
     data := VObj {[ "permissions" := VObj sample_caps;
                     "role" := VStr "admin" ]} |}.

(** A provider that was mounted in [sample_browser] and whose first fetch
    was answered with [sample_response]. *)
Definition loaded_provider : provider :=
  @steps sample_platform (@mount sample_platform sample_browser)
    [Settle (receive (Answered sample_response) sample_browser).1].

End Samples.

(* ===================================================================== *)
(** ** contexts/PermissionContext: the role gate *)
(* ===================================================================== *)

Module RoleGate.
Import PermissionContext.

(** [roles.includes(role)]: the comparison of [includes] agrees with [===]
    on the values modelled; [roles] is the array literal of the caller. *)
Definition includes (items : list jsval) (v : jsval) : bool :=
  existsb (λ x, strict_eq x v) items.

(** [RoleOnly]: nothing while loading, the fallback when the role is not
    among [roles], the children when it is. *)
Definition RoleOnly {C P : Type}
    (roles : list jsval) (children fallback : element C P)
    (ancestors : list ancestor) : result (element C P) :=
  match usePermissions ancestors with
  | Throw m => Throw m
  | Return context =>
      if loading context then Return Null
      else if negb (includes roles (role context)) then Return fallback
           else Return children
  end.

End RoleGate.

(* ===================================================================== *)
(** ** components/Layout: the navigation and the logout button *)
(* ===================================================================== *)

Module Layout.
Import PermissionContext.

(** An entry of the navigation; [permission] is a string or [null].  The
    icon and the badge colour play no part in the filter. *)
Record item : Type := {
  name : string;
  path : string;
  permission : option string;
  badge : option string
}.

Record nav_section : Type := {
  section : string;
  items : list item
}.

Definition navigation : list nav_section :=
  [ {| section := "Screening";
       items :=
         [ {| name := "Screening Pool"; path := "/screening";
              permission := Some "view_candidates"; badge := Some "Stage 1" |};
           {| name := "Candidates"; path := "/candidates";
              permission := Some "view_candidates"; badge := Some "Stage 2" |} ] |};
    {| section := "Management";
       items :=
         [ {| name := "Upload Resume"; path := "/upload";
              permission := Some "upload_resume"; badge := None |};
           {| name := "Jobs"; path := "/jobs";
              permission := Some "view_jobs"; badge := None |};
           {| name := "Matching"; path := "/matching";
              permission := Some "match_candidates"; badge := None |} ] |};
    {| section := "Reports";
       items :=
         [ {| name := "Analytics"; path := "/analytics";
              permission := Some "view_analytics"; badge := None |};
           {| name := "Blacklist"; path := "/blacklist";
              permission := Some "view_blacklist"; badge := None |};
           {| name := "Activity"; path := "/activity";
              permission := Some "view_activity"; badge := None |} ] |};
    {| section := "Personal";
       items :=
         [ {| name := "My Notes"; path := "/my-notes";
              permission := None; badge := None |} ] |};
    {| section := "Admin";
       items :=
         [ {| name := "User Management"; path := "/users";
              permission := Some "manage_users"; badge := None |} ] |} ].

(** [item => !item.permission || hasPermission(item.permission)] *)
Definition item_visible `{Platform} (s : store) (it : item) : bool :=
  negb (item_truthy (permission it))
  || match permission it with
     | Some p => hasPermission s p
     | None => false
     end.

(** [navigation.map(section => ({ ...section, items: section.items.filter(..) }))
              .filter(section => section.items.length > 0)] *)
Definition visibleNavigation `{Platform} (s : store) (nav : list nav_section)
  : list nav_section :=
  filter (λ sec, (0 <? length (items sec))%nat = true)
    (map (λ sec, {| section := section sec;
                    items := filter (λ it, item_visible s it = true) (items sec) |})
         nav).

(** [handleLogout]: [logout(); navigate('/login'); window.location.reload();] *)
Definition handleLogout (b : browser) : browser :=
  navigate "/login" (Auth.logout b).

End Layout.

(* ===================================================================== *)
(** ** pages/UsersPage: the page's own gate *)
(* ===================================================================== *)

Module UsersPage.
Import PermissionContext.

(** What the page returns: the access-denied card, the loading line, or
    the user table. *)
Inductive output : Type :=
  | AccessDenied
  | LoadingUsers
  | UserManagement.

(** [if (!hasPermission('manage_users')) return <access denied>;
     if (loading) return <loading>; return <user management>;]
    where [loading] is the page's own cell for its list of users. *)
Definition render `{Platform} (loading : bool) (ancestors : list ancestor)
  : result output :=
  match usePermissions ancestors with
  | Throw m => Throw m
  | Return context =>
      if negb (hasPermission context "manage_users") then Return AccessDenied
      else if loading then Return LoadingUsers
           else Return UserManagement
  end.

End UsersPage.

(* ===================================================================== *)
(** ** services/api and services/auth: calls *)
(* ===================================================================== *)

Module Services.
Import Api.


(** What [localStorage.setItem] stores for a value: a string as it is, any
    other value through the conversion [other] of the platform. *)
Definition to_item (other : jsval -> string) (v : jsval) : string :=
  match v with
  | VStr s => s
  | _ => other v
  end.

(** [login] after the call is fulfilled with [data]:
    [if (data.access_token) {
       localStorage.setItem('token', data.access_token);
       localStorage.setItem('user', JSON.stringify(data.user)); }]
    [None] is the [TypeError] of reading [null.access_token].  [ToString]
    and [stringify] are the platform's conversions of a non-string token
    and of the profile. *)
Definition login_store `{Platform} (ToString stringify : jsval -> string)
    (data : jsval) (b : browser) : option browser :=
  match get_prop data "access_token" with
  | None => None
  | Some access_token =>
      if truthy access_token
      then Some (setItem "user" (stringify (get_opt data "user"))
                   (setItem "token" (to_item ToString access_token) b))
      else Some b
  end.

End Services.

(* ===================================================================== *)
(** ** pages/ScreeningPage: what the loaders do with an answer *)
(* ===================================================================== *)

Module ScreeningLoaders.

Inductive effect : Type :=
  | SetBatches (v : jsval)
  | SetSelectedBatch (v : jsval)
  | SetLoading (b : bool)
  | ConsoleError (msg : string).


(** [data[0]] *)
Definition first (items : list jsval) : jsval :=
  match items with
  | [] => VUndefined
  | b :: _ => b
  end.


(** The same for a rejected call. *)
Definition loadBatches_rejected : list effect :=
  [ConsoleError "Failed to load batches:"; SetLoading false].


(** The counters [loadPotentials] computes. *)
Record stats : Type := {
  total : jsval;
  pending : nat;
  toCall : nat;
  interested : nat;
  waiting : nat;
  notInterested : nat
}.

(** [x || d] *)
Definition or_else (x d : jsval) : jsval := if truthy x then x else d.

(** The body of the [forEach]: the [else if] chain on [p.status]; reading
    the status of [null] or [undefined] throws ([None]). *)
Definition count `{Platform} (st : stats) (p : jsval) : option stats :=
  match get_prop p "status" with
  | None => None
  | Some status =>
      Some
        (if strict_eq status (VStr "pending") then
           {| total := total st; pending := S (pending st); toCall := toCall st;
              interested := interested st; waiting := waiting st;
              notInterested := notInterested st |}
         else if strict_eq status (VStr "to_be_called") then
           {| total := total st; pending := pending st; toCall := S (toCall st);
              interested := interested st; waiting := waiting st;
              notInterested := notInterested st |}
         else if strict_eq status (VStr "interested") then
           {| total := total st; pending := pending st; toCall := toCall st;
              interested := S (interested st); waiting := waiting st;
              notInterested := notInterested st |}
         else if strict_eq status (VStr "waiting_resume") then
           {| total := total st; pending := pending st; toCall := toCall st;
              interested := interested st; waiting := S (waiting st);
              notInterested := notInterested st |}
         else if strict_eq status (VStr "not_interested") then
           {| total := total st; pending := pending st; toCall := toCall st;
              interested := interested st; waiting := waiting st;
              notInterested := S (notInterested st) |}
         else st)
  end.

Fixpoint forEach `{Platform} (st : stats) (potentials : list jsval)
  : option stats :=
  match potentials with
  | [] => Some st
  | p :: rest =>
      match count st p with
      | None => None
      | Some st' => forEach st' rest
      end
  end.

(** [newStats] of [loadPotentials] for an answer with [data.total = total]
    and the array [potentials]: [{ total: data.total || 0, pending: 0, ... }]
    after the [forEach]. *)
Definition newStats `{Platform} (data_total : jsval) (potentials : list jsval)
  : option stats :=
  forEach {| total := or_else data_total (VNum 0); pending := 0; toCall := 0;
             interested := 0; waiting := 0; notInterested := 0 |}
          potentials.

(** The statuses that have a counter. *)
Definition counted_statuses : list string :=
  ["pending"; "to_be_called"; "interested"; "waiting_resume"; "not_interested"].

End ScreeningLoaders.

(* ===================================================================== *)
(** ** utils/dateUtils *)
(* ===================================================================== *)

Module DateUtils.

(** [s.endsWith(suffix)] *)
Definition endsWith (s suffix : string) : bool :=
  let n := String.length s in
  let m := String.length suffix in
  (m <=? n)%nat && String.eqb (String.substring (n - m) m s) suffix.

(** What [parseUTCDate] hands to [new Date]. *)
Definition utcTimestamp (timestamp : string) : string :=
  if endsWith timestamp "Z" then timestamp else timestamp +:+ "Z".

Section Dates.

(** A [Date] is its time value in milliseconds, [None] for an invalid
    date.  The platform parses the string ([new Date(text)]) and prints
    dates ([toLocaleDateString], [toLocaleString] with the options of the
    callers). *)
Variable Date_parse : string -> option Z.
Variable toLocaleDateString : option Z -> string.

(** [parseUTCDate] for a timestamp that is a string, or missing ([null] or
    [undefined], [None]): [null] ([None]) for a falsy timestamp, else the
    date. *)
Definition parseUTCDate (timestamp : option string) : option (option Z) :=
  match timestamp with
  | Some t =>
      if negb (item_truthy (Some t)) then None
      else Some (Date_parse (utcTimestamp t))
  | None => None
  end.

(** [`${n} ${unit}${n !== 1 ? 's' : ''} ago`] *)
Definition ago (n : Z) (unit : string) : string :=
  pretty n +:+ " " +:+ unit +:+ (if negb (n =? 1) then "s" else EmptyString)
  +:+ " ago".

(** [formatTimeAgo], with [now] the time value of [new Date()].  A date is
    an object, so [!time] holds only for [null]; with an invalid date the
    difference is [NaN], every comparison is false and the last line
    prints the invalid date. *)
Definition formatTimeAgo (now : Z) (timestamp : option string) : string :=
  match parseUTCDate timestamp with
  | None => "Unknown"
  | Some None => toLocaleDateString None
  | Some (Some time) =>
      let seconds := (now - time) / 1000 in
      if seconds <? 0 then "Just now"
      else if seconds <? 60 then "Just now"
      else if seconds <? 3600 then ago (seconds / 60) "minute"
      else if seconds <? 86400 then ago (seconds / 3600) "hour"
      else if seconds <? 604800 then ago (seconds / 86400) "day"
      else toLocaleDateString (Some time)
  end.

(** [formatDate] and [formatDateTime] differ in the printer only. *)
Definition formatDate (timestamp : option string) : string :=
  match parseUTCDate timestamp with
  | None => "Unknown"
  | Some time => toLocaleDateString time
  end.

End Dates.

End DateUtils.

(* ===================================================================== *)
(** ** Invariants *)
(* ===================================================================== *)


(** How many of the potentials have the status [s]. *)
Definition status_count `{Platform} (s : string) (potentials : list jsval) : nat :=
  length (filter (λ p, strict_eq (get_opt p "status") (VStr s) = true)
                 potentials).

(* ===================================================================== *)
(** ** Facts about JavaScript values *)
(* ===================================================================== *)

Section JSFacts.
Context `{Platform}.

Lemma strict_eq_true_iff (v : jsval) :
  strict_eq v (VBool true) = true <-> v = VBool true.
Proof.
  destruct v as [| |[]| | | | |]; simpl; split; intros E;
    try discriminate; try reflexivity.
Qed.

Lemma strict_eq_str_iff (v : jsval) (t : string) :
  strict_eq v (VStr t) = true <-> v = VStr t.
Proof.
  destruct v; simpl; split; intros E; try discriminate.
  - apply String.eqb_eq in E. by subst.
  - injection E as ->. apply String.eqb_refl.
Qed.

(** Nothing inherited from a prototype is a boolean or a string. *)
Lemma from_proto_cases (p : proto) (k : string) :
  from_proto p k = VBuiltin k \/ from_proto p k = VUndefined.
Proof. unfold from_proto. destruct (proto_has p k); auto. Qed.

Lemma from_proto_not_true (p : proto) (k : string) :
  from_proto p k <> VBool true.
Proof. destruct (from_proto_cases p k) as [-> | ->]; discriminate. Qed.

Lemma from_proto_not_str (p : proto) (k t : string) :
  from_proto p k <> VStr t.
Proof. destruct (from_proto_cases p k) as [-> | ->]; discriminate. Qed.

(** Reading a property of an object yields [true] exactly for an own
    property whose value is [true]. *)
Lemma get_prop_obj_true (fields : gmap string jsval) (k : string) :
  get_prop (VObj fields) k = Some (VBool true) <->
  fields !! k = Some (VBool true).
Proof.
  simpl. destruct (fields !! k) as [x|]; split; intros E.
  - by injection E as ->.
  - by injection E as ->.
  - injection E as E. by apply from_proto_not_true in E.
  - discriminate.
Qed.

(** A falsy value has no property whose value is [true]. *)
Lemma get_prop_falsy (v : jsval) (k : string) :
  truthy v = false -> get_prop v k <> Some (VBool true).
Proof.
  destruct v as [| |b|n|s| | |]; simpl; try discriminate; intros F E.
  - injection E as E. by apply from_proto_not_true in E.
  - injection E as E. by apply from_proto_not_true in E.
  - apply negb_false_iff, String.eqb_eq in F. subst s. simpl in E.
    destruct (String.eqb k "length"); [discriminate|].
    injection E as E. by apply from_proto_not_true in E.
Qed.

(** A truthy value can be read. *)
Lemma get_prop_truthy (v : jsval) (k : string) :
  truthy v = true -> is_Some (get_prop v k).
Proof. destruct v; simpl; try discriminate; eauto. Qed.

(** [v?.type === t] holds only for a value with that [type]. *)
Lemma get_opt_obj (fields : gmap string jsval) (k : string) (x : jsval) :
  fields !! k = Some x -> get_opt (VObj fields) k = x.
Proof. unfold get_opt. simpl. by intros ->. Qed.

End JSFacts.

(* ===================================================================== *)
(** ** The permission store: queries *)
(* ===================================================================== *)

Section PermissionQueries.
Import PermissionContext.
Context `{Platform}.

Lemma hasPermission_true_iff (s : store) (action : string) :
  hasPermission s action = true <->
  get_prop (permissions s) action = Some (VBool true).
Proof.
  unfold hasPermission.
  destruct (truthy (permissions s)) eqn:T; simpl.
  - destruct (get_prop_truthy _ action T) as [v ->].
    rewrite strict_eq_true_iff. split; [by intros -> | by intros [= ->]].
  - split; [discriminate|]. intros E. by apply get_prop_falsy in E.
Qed.

Lemma hasPermission_not_loaded (s : store) (action : string) :
  truthy (permissions s) = false -> hasPermission s action = false.
Proof. unfold hasPermission. by intros ->. Qed.

Lemma hasPermission_loaded (s : store) (caps : gmap string jsval)
    (action : string) :
  permissions s = VObj caps ->
  hasPermission s action = true <-> caps !! action = Some (VBool true).
Proof.
  intros E. rewrite hasPermission_true_iff, E. apply get_prop_obj_true.
Qed.

Lemma some_result {A : Type} (f : A -> bool) (l : list A) :
  (some f l).1 = foldr orb false (f <$> l).
Proof.
  induction l as [|x l IH]; [reflexivity|]. simpl.
  destruct (f x); [reflexivity|]. destruct (some f l). simpl in *. done.
Qed.

Lemma every_result {A : Type} (f : A -> bool) (l : list A) :
  (every f l).1 = foldr andb true (f <$> l).
Proof.
  induction l as [|x l IH]; [reflexivity|]. simpl.
  destruct (f x); [|reflexivity]. destruct (every f l). simpl in *. done.
Qed.

(** [some] stops at the first element the callback accepts. *)
Lemma some_stops {A : Type} (f : A -> bool) (pre : list A) (a : A)
    (post : list A) :
  Forall (λ x, f x = false) pre -> f a = true ->
  some f (pre ++ a :: post) = (true, pre ++ [a]).
Proof.
  intros Hpre Ha. induction Hpre as [|x pre Hx _ IH]; simpl.
  - by rewrite Ha.
  - by rewrite Hx, IH.
Qed.

(** [every] stops at the first element the callback refuses. *)
Lemma every_stops {A : Type} (f : A -> bool) (pre : list A) (a : A)
    (post : list A) :
  Forall (λ x, f x = true) pre -> f a = false ->
  every f (pre ++ a :: post) = (false, pre ++ [a]).
Proof.
  intros Hpre Ha. induction Hpre as [|x pre Hx _ IH]; simpl.
  - by rewrite Ha.
  - by rewrite Hx, IH.
Qed.

(** Without an accepted element [some] visits the whole array, and
    likewise [every] without a refused one. *)
Lemma some_exhausts {A : Type} (f : A -> bool) (l : list A) :
  Forall (λ x, f x = false) l -> some f l = (false, l).
Proof.
  induction 1 as [|x l Hx _ IH]; simpl; [done|]. by rewrite Hx, IH.
Qed.

Lemma every_exhausts {A : Type} (f : A -> bool) (l : list A) :
  Forall (λ x, f x = true) l -> every f l = (true, l).
Proof.
  induction 1 as [|x l Hx _ IH]; simpl; [done|]. by rewrite Hx, IH.
Qed.

Lemma useContext_outside (ancestors : list ancestor) :
  (forall value, PermissionProvider value ∉ ancestors) ->
  useContext ancestors = None.
Proof.
  induction ancestors as [|[value|name] outer IH]; intros Hout; simpl.
  - reflexivity.
  - exfalso. apply (Hout value). by left.
  - apply IH. intros value Hin. apply (Hout value). by right.
Qed.

Lemma useContext_inside (ancestors : list ancestor) (value : store) :
  useContext ancestors = Some value -> PermissionProvider value ∈ ancestors.
Proof.
  induction ancestors as [|[v|name] outer IH]; simpl; intros E.
  - discriminate.
  - injection E as ->. by left.
  - right. by apply IH.
Qed.

End PermissionQueries.

(* ===================================================================== *)
(** ** The permission store: what the queries answer *)
(* ===================================================================== *)

Import PermissionContext.

(** C4. [hasPermission(action)] is [false] while the capability set is not
    loaded ([permissions] is still [null]).  For a loaded capability set it
    is [true] when the set maps the key to the boolean [true], and [false]
    when the key is absent or mapped to anything else.  Whatever the cell
    holds, the answer is [true] exactly when reading the key from it yields
    the boolean [true]. *)
Theorem hasPermission_explicit_true `{Platform} (s : store) (action : string) :
  (permissions s = VNull -> hasPermission s action = false) /\
  (forall caps, permissions s = VObj caps ->
     (caps !! action = Some (VBool true) -> hasPermission s action = true) /\
     (caps !! action <> Some (VBool true) -> hasPermission s action = false)) /\
  (hasPermission s action = true <->
   get_prop (permissions s) action = Some (VBool true)).
Proof.
  split; [|split].
  - intros E. apply hasPermission_not_loaded. by rewrite E.
  - intros caps E. split.
    + intros L. by apply (hasPermission_loaded s caps).
    + intros L. apply not_true_is_false. intros T. apply L.
      by apply (hasPermission_loaded s caps).
  - apply hasPermission_true_iff.
Qed.

Lemma hasPermission_explicit_true_witness :
  permissions Samples.sample_store = VObj Samples.sample_caps /\
  Samples.sample_caps !! "view_candidates" = Some (VBool true) /\
  @hasPermission Samples.sample_platform Samples.sample_store "view_candidates"
  = true.
Proof.
  split; [reflexivity|]. split; [reflexivity|].
  apply (proj1 (proj1 (proj2 (@hasPermission_explicit_true
           Samples.sample_platform Samples.sample_store "view_candidates"))
         Samples.sample_caps eq_refl)).
  reflexivity.
Defined.

(** C8. [hasAnyPermission] is the disjunction and [hasAllPermissions] the
    conjunction of [hasPermission] over the action list; [some] asks no
    action after the first granted one and [every] none after the first
    denied one.  With the capability set
    [{view_candidates: true, manage_users: false}],
    [hasAnyPermission(['manage_users','view_candidates'])] is [true] and
    [hasAllPermissions(['manage_users','view_candidates'])] is [false]. *)
Theorem hasAny_hasAll_short_circuit `{Platform} (s : store) :
  (forall actions,
     hasAnyPermission s actions = foldr orb false (hasPermission s <$> actions) /\
     hasAllPermissions s actions = foldr andb true (hasPermission s <$> actions)) /\
  (forall pre a post,
     Forall (λ x, hasPermission s x = false) pre -> hasPermission s a = true ->
     (some (hasPermission s) (pre ++ a :: post)).2 = pre ++ [a]) /\
  (forall pre a post,
     Forall (λ x, hasPermission s x = true) pre -> hasPermission s a = false ->
     (every (hasPermission s) (pre ++ a :: post)).2 = pre ++ [a]) /\
  (permissions s = VObj Samples.sample_caps ->
     hasAnyPermission s ["manage_users"; "view_candidates"] = true /\
     hasAllPermissions s ["manage_users"; "view_candidates"] = false).
Proof.
  split; [|split; [|split]].
  - intros actions. split; [apply some_result | apply every_result].
  - intros pre a post Hpre Ha. by rewrite some_stops.
  - intros pre a post Hpre Ha. by rewrite every_stops.
  - intros E.
    assert (hasPermission s "manage_users" = false) as Hm.
    { apply not_true_is_false. rewrite (hasPermission_loaded s _ _ E).
      vm_compute. discriminate. }
    assert (hasPermission s "view_candidates" = true) as Hv.
    { rewrite (hasPermission_loaded s _ _ E). reflexivity. }
    unfold hasAnyPermission, hasAllPermissions. simpl. by rewrite Hm, Hv.
Qed.

Lemma hasAny_hasAll_short_circuit_witness :
  @hasAnyPermission Samples.sample_platform Samples.sample_store
    ["manage_users"; "view_candidates"] = true /\
  @hasAllPermissions Samples.sample_platform Samples.sample_store
    ["manage_users"; "view_candidates"] = false /\
  (@some string (@hasPermission Samples.sample_platform Samples.sample_store)
     ["manage_users"; "view_candidates"; "delete_candidate"]).2
  = ["manage_users"; "view_candidates"].
Proof.
  pose proof (@hasAny_hasAll_short_circuit Samples.sample_platform
                Samples.sample_store) as (_ & Hsome & _ & Hex).
  destruct (Hex eq_refl) as [Hany Hall].
  split; [exact Hany|]. split; [exact Hall|].
  apply (Hsome ["manage_users"] "view_candidates" ["delete_candidate"]).
  - repeat constructor.
  - reflexivity.
Defined.

(** C9. For the empty action list, in every state of the store,
    [hasAnyPermission([])] is [false] and [hasAllPermissions([])] is [true],
    and neither asks [hasPermission] anything. *)
Theorem empty_action_list `{Platform} (s : store) :
  hasAnyPermission s [] = false /\
  hasAllPermissions s [] = true /\
  (some (hasPermission s) []).2 = [] /\
  (every (hasPermission s) []).2 = [].
Proof. repeat split. Qed.

(** C10. [usePermissions], called by a component none of whose ancestors is
    a [PermissionProvider], throws the [Error]
    'usePermissions must be used within PermissionProvider'; it returns no
    store. *)
Theorem usePermissions_outside_provider (ancestors : list ancestor) :
  (forall value, PermissionProvider value ∉ ancestors) ->
  usePermissions ancestors
  = Throw "usePermissions must be used within PermissionProvider" /\
  (forall context, usePermissions ancestors <> Return context).
Proof.
  intros Hout. unfold usePermissions.
  rewrite (useContext_outside ancestors Hout). split; [reflexivity|].
  intros context. discriminate.
Qed.

Lemma usePermissions_outside_provider_witness :
  usePermissions [OtherComponent "Router"; OtherComponent "App"]
  = Throw "usePermissions must be used within PermissionProvider".
Proof.
  apply (usePermissions_outside_provider
           [OtherComponent "Router"; OtherComponent "App"]).
  intros value Hin.
  apply list_elem_of_In in Hin. simpl in Hin.
  destruct Hin as [E|[E|[]]]; discriminate E.
Defined.

(** C7. Below a provider whose value is [context], the component returned
    by [withPermission(Component, requiredPermission)] renders the loading
    placeholder while [loading] is set; once [loading] is cleared it renders
    the access-denied view when [hasPermission(requiredPermission)] is
    [false] and the element of [Component] when it is [true].  Neither the
    placeholder nor the access-denied view contains a component element, so
    whenever the output contains one, [loading] is cleared,
    [hasPermission(requiredPermission)] is [true] and the output is the
    element of [Component] with the given props. *)
Theorem withPermission_gate `{Platform} {C P : Type}
    (Component : C) (requiredPermission : string) (props : P)
    (context : store) (ancestors : list ancestor) :
  useContext ancestors = Some context ->
  (loading context = true ->
     withPermission Component requiredPermission props ancestors
     = Return loading_placeholder) /\
  (loading context = false ->
     hasPermission context requiredPermission = false ->
     withPermission Component requiredPermission props ancestors
     = Return access_denied) /\
  (loading context = false ->
     hasPermission context requiredPermission = true ->
     withPermission Component requiredPermission props ancestors
     = Return (Render Component props)) /\
  (forall e,
     withPermission Component requiredPermission props ancestors = Return e ->
     rendered e <> [] ->
     loading context = false /\
     hasPermission context requiredPermission = true /\
     e = Render Component props).
Proof.
  intros Hctx. unfold withPermission, usePermissions. rewrite Hctx.
  destruct (loading context) eqn:L.
  - split; [done|]. split; [done|]. split; [done|].
    intros e [= <-] Hr. exfalso. by apply Hr.
  - destruct (hasPermission context requiredPermission) eqn:G; simpl.
    + split; [done|]. split; [done|]. split; [done|].
      by intros e [= <-] _.
    + split; [done|]. split; [done|]. split; [done|].
      intros e [= <-] Hr. exfalso. by apply Hr.
Qed.

Lemma withPermission_gate_witness :
  @withPermission Samples.sample_platform string unit
    "UsersPage" "manage_users" tt
    [OtherComponent "Layout"; PermissionProvider Samples.sample_store]
  = Return access_denied.
Proof.
  apply (proj1 (proj2 (@withPermission_gate Samples.sample_platform string unit
           "UsersPage" "manage_users" tt Samples.sample_store
           [OtherComponent "Layout"; PermissionProvider Samples.sample_store]
           eq_refl)));
    reflexivity.
Defined.

(* ===================================================================== *)
(** ** The permission store: loading and refreshing *)
(* ===================================================================== *)

Section PermissionLoading.
Context `{Platform}.

Lemma run_SetLoading_false (s : store) :
  loading s = false -> run [SetLoading false; SetLoading false] s = s.
Proof. destruct s as [p r l]. simpl. by intros ->. Qed.

(** A call of [loadPermissions] changes no cell of a store whose [loading]
    is already cleared. *)
Lemma Load_keeps_ready (b : browser) (p : provider) :
  loading (state p) = false -> state (step p (Load b)) = state p.
Proof.
  intros L. unfold step, loadPermissions_start.
  destruct (item_truthy (getItem b "token")); simpl.
  - reflexivity.
  - destruct (state p) as [ps r l]. simpl in *. by rewrite L.
Qed.

Lemma Load_in_flight (b : browser) (p : provider) :
  in_flight (step p (Load b))
  = if Auth.isAuthenticated b then S (in_flight p) else in_flight p.
Proof.
  unfold step, loadPermissions_start, Auth.isAuthenticated, Auth.getToken.
  by destruct (item_truthy (getItem b "token")).
Qed.

(** A rejected fetch clears [loading] and touches neither [permissions]
    nor [role]. *)
Lemma Settle_Rejected (p : provider) (e : Api.error) (n : nat) :
  in_flight p = S n ->
  step p (Settle (Api.Rejected e))
  = {| state := {| permissions := permissions (state p);
                   role := role (state p);
                   loading := false |};
       in_flight := n |}.
Proof. unfold step. by intros ->. Qed.

(** Until a fetch is fulfilled, [permissions] and [role] keep their initial
    [null]. *)
Lemma null_until_fulfilled (p : provider) (evs : list event) :
  permissions (state p) = VNull -> role (state p) = VNull ->
  Forall (λ ev, forall resp, ev <> Settle (Api.Fulfilled resp)) evs ->
  permissions (state (steps p evs)) = VNull /\
  role (state (steps p evs)) = VNull.
Proof.
  intros Hp Hr Hevs. revert p Hp Hr.
  induction Hevs as [|ev evs Hev _ IH]; intros p Hp Hr; [done|].
  unfold steps. simpl. apply IH.
  - destruct ev as [b|[resp|e]]; simpl.
    + unfold loadPermissions_start.
      by destruct (item_truthy (getItem b "token")).
    + by destruct (Hev resp).
    + by destruct (in_flight p).
  - destruct ev as [b|[resp|e]]; simpl.
    + unfold loadPermissions_start.
      by destruct (item_truthy (getItem b "token")).
    + by destruct (Hev resp).
    + by destruct (in_flight p).
Qed.

Lemma null_store_denies (s : store) :
  permissions s = VNull -> role s = VNull ->
  (forall action, hasPermission s action = false) /\ isAdmin s = false.
Proof.
  intros Hp Hr. split.
  - intros action. apply hasPermission_not_loaded. by rewrite Hp.
  - unfold isAdmin. by rewrite Hr.
Qed.

End PermissionLoading.

(** C1, as the code has it.  When [refreshPermissions] is called on a store
    whose [loading] is cleared, no cell of the store changes: [loading]
    stays cleared, [permissions] and [role] are those of the previous load,
    and [hasPermission] answers every action as before.  With a token in
    storage one more fetch is in flight. *)
Theorem refresh_keeps_READY `{Platform} (b : browser) (p : provider) :
  loading (state p) = false ->
  state (refreshPermissions b p) = state p /\
  loading (state (refreshPermissions b p)) = false /\
  (forall action,
     hasPermission (state (refreshPermissions b p)) action
     = hasPermission (state p) action) /\
  (Auth.isAuthenticated b = true ->
   in_flight (refreshPermissions b p) = S (in_flight p)).
Proof.
  intros L. unfold refreshPermissions.
  rewrite (Load_keeps_ready b p L). split; [done|]. split; [done|].
  split; [done|]. intros A. by rewrite Load_in_flight, A.
Qed.

Lemma refresh_keeps_READY_witness :
  state (@refreshPermissions Samples.sample_platform Samples.sample_browser
           Samples.loaded_provider)
  = state Samples.loaded_provider.
Proof.
  apply (@refresh_keeps_READY Samples.sample_platform Samples.sample_browser
           Samples.loaded_provider).
  reflexivity.
Defined.

(** C1 as stated fails: a provider is mounted with a token in storage, its
    fetch is answered with [{view_candidates: true, manage_users: false}]
    for an admin, and [refreshPermissions] is called.  The new fetch is in
    flight, yet [loading] is still cleared and
    [hasPermission('view_candidates')] is still [true]. *)
Lemma refresh_reenters_LOADING_counterexample :
  let p := Samples.loaded_provider in
  let p' := @refreshPermissions Samples.sample_platform Samples.sample_browser p in
  loading (state p) = false /\
  in_flight p = 0%nat /\ in_flight p' = 1%nat /\
  loading (state p') = false /\
  @hasPermission Samples.sample_platform (state p') "view_candidates" = true /\
  ~ (loading (state p') = true /\
     forall action,
       @hasPermission Samples.sample_platform (state p') action = false).
Proof.
  repeat split. intros [L _]. vm_compute in L. discriminate.
Qed.

(** C2, as the code has it.  When a permission fetch is rejected, [loading]
    is cleared and [permissions] and [role] keep the values they had before
    the fetch settled.  If those are still the initial [null], every
    [hasPermission] is [false] and [isAdmin()] is [false]; that is the case
    whenever no fetch has been fulfilled since the provider was mounted. *)
Theorem fetch_failure_keeps_state `{Platform} (p : provider) (e : Api.error) :
  in_flight p <> 0%nat ->
  let p' := step p (Settle (Api.Rejected e)) in
  loading (state p') = false /\
  permissions (state p') = permissions (state p) /\
  role (state p') = role (state p) /\
  (permissions (state p) = VNull -> role (state p) = VNull ->
   (forall action, hasPermission (state p') action = false) /\
   isAdmin (state p') = false) /\
  (forall b evs,
     p = steps (mount b) evs ->
     Forall (λ ev, forall resp, ev <> Settle (Api.Fulfilled resp)) evs ->
     (forall action, hasPermission (state p') action = false) /\
     isAdmin (state p') = false).
Proof.
  intros F. destruct (in_flight p) as [|n] eqn:E; [done|]. clear F.
  simpl. rewrite (Settle_Rejected p e n E). simpl.
  split; [done|]. split; [done|]. split; [done|]. split.
  - intros Hp Hr. by apply null_store_denies.
  - intros b evs -> Hevs. apply null_store_denies; simpl.
    + by apply (null_until_fulfilled (mount b) evs);
        [apply (null_until_fulfilled _ [Load b]); try done;
         repeat constructor; discriminate ..|].
    + by apply (null_until_fulfilled (mount b) evs);
        [apply (null_until_fulfilled _ [Load b]); try done;
         repeat constructor; discriminate ..|].
Qed.

Lemma fetch_failure_keeps_state_witness :
  let p := @mount Samples.sample_platform Samples.sample_browser in
  let p' := @step Samples.sample_platform p
              (Settle (Api.Rejected (Api.AxiosError None))) in
  in_flight p <> 0%nat /\ loading (state p') = false /\
  @hasPermission Samples.sample_platform (state p') "view_candidates" = false /\
  isAdmin (state p') = false.
Proof.
  assert (in_flight (@mount Samples.sample_platform Samples.sample_browser)
          <> 0%nat) as F by (vm_compute; discriminate).
  pose proof (@fetch_failure_keeps_state Samples.sample_platform
                (@mount Samples.sample_platform Samples.sample_browser)
                (Api.AxiosError None) F) as (L & _ & _ & _ & D).
  destruct (D Samples.sample_browser [] eq_refl (Forall_nil_2 _)) as [Hd Ha].
  split; [exact F|]. split; [exact L|]. split; [apply Hd | exact Ha].
Defined.

(** C2 as stated fails: after a load that made the user an admin with
    [view_candidates] granted, [refreshPermissions] is called and the fetch
    fails without an answer (network error).  The store is READY, and
    [isAdmin()] and [hasPermission('view_candidates')] are still [true]. *)
Lemma fetch_failure_fully_denied_counterexample :
  let p := @refreshPermissions Samples.sample_platform Samples.sample_browser
             Samples.loaded_provider in
  let p' := @step Samples.sample_platform p
              (Settle (Api.receive Api.NoAnswer Samples.sample_browser).1) in
  in_flight p = 1%nat /\
  loading (state p') = false /\
  isAdmin (state p') = true /\
  @hasPermission Samples.sample_platform (state p') "view_candidates" = true /\
  ~ ((forall action,
        @hasPermission Samples.sample_platform (state p') action = false) /\
     isAdmin (state p') = false).
Proof.
  repeat split. intros [_ A]. vm_compute in A. discriminate.
Qed.

(* ===================================================================== *)
(** ** The REST client *)
(* ===================================================================== *)

Section ApiFacts.
Import Api.

Lemma request_interceptor_attaches (b : browser) (cfg : config) (token : string) :
  getItem b "token" = Some token -> token <> EmptyString ->
  headers (request_interceptor b cfg) !! "Authorization"
  = Some ("Bearer " +:+ token).
Proof.
  intros G N. unfold request_interceptor. rewrite G. simpl.
  destruct (String.eqb_spec token EmptyString) as [->|_]; [done|]. simpl.
  apply lookup_insert_eq.
Qed.

Lemma isAuthenticated_token (b : browser) :
  Auth.isAuthenticated b = true ->
  exists token, getItem b "token" = Some token /\ token <> EmptyString.
Proof.
  unfold Auth.isAuthenticated, Auth.getToken.
  destruct (getItem b "token") as [token|]; simpl; [|discriminate].
  intros T. exists token. split; [done|]. intros ->. discriminate.
Qed.

(** Any answer with status 401 is rejected by axios. *)
Lemma settle_401 (r : response) :
  status r = 401 -> settle (Answered r) = Rejected (AxiosError (Some r)).
Proof. unfold settle, validateStatus. by intros ->. Qed.

(** The bare [axios] call of [ActivityPage] leaves the session alone,
    whatever the answer. *)
Lemma ActivityPage_bypasses_interceptors (t : transport) (b : browser) :
  (Pages.axios_receive t b).2 = b.
Proof. reflexivity. Qed.

End ApiFacts.

(** C6. Every call made through the client [api] leaves with the header
    [Authorization: Bearer <token>] when a token is stored (the test of the
    interceptor, which is the session test [isAuthenticated] of
    [services/auth]), and every answer with status 401 is rejected with the
    token and the cached profile removed from storage and the location set
    to the login view. *)
Theorem api_interceptors (b : browser) (cfg : Api.config) :
  (Auth.isAuthenticated b = true ->
   exists token,
     Auth.getToken b = Some token /\
     Api.headers (Api.send b cfg) !! "Authorization"
     = Some ("Bearer " +:+ token)) /\
  (forall r,
     Api.status r = 401 ->
     (Api.receive (Api.Answered r) b).1
     = Api.Rejected (Api.AxiosError (Some r)) /\
     getItem (Api.receive (Api.Answered r) b).2 "token" = None /\
     getItem (Api.receive (Api.Answered r) b).2 "user" = None /\
     location_href (Api.receive (Api.Answered r) b).2 = "/login").
Proof.
  split.
  - intros A. destruct (isAuthenticated_token b A) as (token & G & N).
    exists token. split; [exact G|].
    by apply request_interceptor_attaches.
  - intros r S. unfold Api.receive. rewrite (settle_401 r S). simpl.
    unfold Api.response_rejected. simpl. rewrite S. simpl.
    unfold getItem. simpl. split; [done|]. split; [|split; [|done]].
    + rewrite lookup_delete_ne by done. apply lookup_delete_eq.
    + apply lookup_delete_eq.
Qed.

Lemma api_interceptors_witness :
  Auth.isAuthenticated Samples.sample_browser = true /\
  Api.headers (Api.send Samples.sample_browser
                 (Api.get "/api/users/me/permissions")) !! "Authorization"
  = Some "Bearer abc123" /\
  getItem (Api.receive (Api.Answered {| Api.status := 401; Api.data := VNull |})
             Samples.sample_browser).2 "token" = None.
Proof.
  pose proof (api_interceptors Samples.sample_browser
                (Api.get "/api/users/me/permissions")) as [Hreq Hres].
  split; [reflexivity|]. split.
  - destruct (Hreq eq_refl) as (token & G & Hh).
    injection G as <-. exact Hh.
  - exact (proj1 (proj2 (Hres {| Api.status := 401; Api.data := VNull |}
                           eq_refl))).
Defined.

(* ===================================================================== *)
(** ** The live-update hook and its subscribers *)
(* ===================================================================== *)

Section LiveUpdates.
Import UseWebSocket Pages.
Context `{Platform}.

Lemma connections_length (a : app) : length (connections a) = length a.
Proof. unfold connections. apply length_map. Qed.

Lemma connections_mount (env : option string) (b : browser) (r : route)
    (a : app) :
  connections (mount_page env b r a) = connections a ++ [connect env b].
Proof. unfold connections, mount_page. by rewrite map_app. Qed.

Lemma app_step_length (env : option string) (b : browser) (a : app)
    (ev : app_event) :
  length (app_step env b a ev)
  = (if is_mount ev then S (length a) else length a).
Proof.
  destruct ev as [r|i|i e]; simpl.
  - unfold mount_page. rewrite length_app. simpl. lia.
  - unfold unmount_page. destruct (a !! i); [apply length_insert | done].
  - unfold deliver_to. destruct (a !! i); [apply length_insert | done].
Qed.

Lemma app_run_length (env : option string) (b : browser) (a : app)
    (evs : list app_event) :
  length (foldl (app_step env b) a evs)
  = (length a + length (filter (λ ev, is_mount ev = true) evs))%nat.
Proof.
  revert a. induction evs as [|ev evs IH]; intros a; simpl; [lia|].
  rewrite IH, app_step_length.
  destruct ev; simpl; rewrite ?filter_cons_True, ?filter_cons_False by done;
    simpl; lia.
Qed.

(** A parsed frame is handed to [setLastMessage], once. *)
Lemma onmessage_parsed (frame : string) (msg : jsval) :
  JSON_parse frame = Some msg -> onmessage frame = Some [SetLastMessage msg].
Proof. unfold onmessage. by intros ->. Qed.

(** An effect makes no call for a message whose type it does not look
    for. *)
Lemma effect_unrecognised (pg : page) (msg : jsval) :
  Forall (λ t, type_is msg t = false) (types_of pg) -> effect pg msg = [].
Proof.
  destruct pg as [sel|]; simpl; intros F.
  - unfold ScreeningPage_effect.
    repeat (apply Forall_cons_1 in F as [-> F]). reflexivity.
  - unfold JobsPage_effect.
    apply Forall_cons_1 in F as [-> _]. reflexivity.
Qed.

(** The effect of [ScreeningPage] on a [batch_paused] message. *)
Lemma ScreeningPage_effect_batch_paused (fields : gmap string jsval)
    (sel : jsval) :
  fields !! "type" = Some (VStr "batch_paused") ->
  ScreeningPage_effect (VObj fields) sel
  = LoadBatches ::
    (if truthy sel then [LoadPotentials (get_opt sel "id")] else []).
Proof.
  intros T. unfold ScreeningPage_effect, type_is.
  rewrite (get_opt_obj fields "type" _ T). by cbn.
Qed.

(** What a parsed frame does to a mounted view. *)
Lemma deliver_Message (v : view) (frame : string) (msg : jsval) :
  mounted (view_hook v) = true ->
  JSON_parse frame = Some msg ->
  lastMessage (view_hook (deliver v (Message frame))) = msg /\
  view_calls (deliver v (Message frame))
  = view_calls v ++
    (if Object_is_fresh (lastMessage (view_hook v)) msg then []
     else effect (view_page v) msg).
Proof.
  intros M J. unfold deliver. rewrite (onmessage_parsed frame msg J).
  unfold set_state. rewrite M. simpl.
  destruct (Object_is_fresh (lastMessage (view_hook v)) msg); simpl.
  - by rewrite app_nil_r.
  - done.
Qed.

End LiveUpdates.

Import UseWebSocket Pages.

(** C3, as the code has it.  Every page that calls [useWebSocket] constructs
    a socket of its own in its mount effect: mounting a page adds one
    connection to those already there, so after any run of the application
    as many sockets have been constructed as pages were mounted; and what
    the transport delivers on the socket of one page leaves every other
    page, with its [lastMessage], as it was. *)
Theorem connection_per_mounted_view `{Platform}
    (VITE_API_URL : option string) (b : browser) :
  (forall r a,
     connections (mount_page VITE_API_URL b r a)
     = connections a ++ [connect VITE_API_URL b] /\
     live_connections (mount_page VITE_API_URL b r a)
     = live_connections a ++ [connect VITE_API_URL b]) /\
  (forall evs,
     length (connections (app_run VITE_API_URL b evs))
     = length (filter (λ ev, is_mount ev = true) evs)) /\
  (forall a i j e, i <> j -> deliver_to i e a !! j = a !! j).
Proof.
  split; [|split].
  - intros r a. split; [apply connections_mount|].
    unfold live_connections. rewrite connections_mount, filter_app.
    f_equal.
  - intros evs. unfold app_run.
    by rewrite connections_length, app_run_length.
  - intros a i j e N. unfold deliver_to.
    destruct (a !! i); [by apply list_lookup_insert_ne | done].
Qed.

(** C3 as stated fails.  The screening page is mounted and its socket
    opens; the user goes to the jobs page, so the screening page is
    unmounted and the jobs page mounted: a second socket has been
    constructed in the same session.  When the first socket has not opened
    yet at that moment, the cleanup does not close it and both are live. *)
Lemma single_shared_connection_counterexample :
  let run := @app_run Samples.sample_platform None Samples.sample_browser in
  length (connections (run [MountPage Screening; Transport 0 Opened])) = 1%nat /\
  length (connections
            (run [MountPage Screening; Transport 0 Opened;
                  UnmountPage 0; MountPage Jobs])) = 2%nat /\
  length (live_connections
            (run [MountPage Screening; UnmountPage 0; MountPage Jobs])) = 2%nat /\
  length (live_connections
            (run [MountPage Screening; MountPage Jobs])) = 2%nat /\
  connections (run [MountPage Screening; Transport 0 Opened;
                    UnmountPage 0; MountPage Jobs])
  <> connections (run [MountPage Screening; Transport 0 Opened;
                       UnmountPage 0]).
Proof. repeat split. intros E. vm_compute in E. discriminate. Qed.

(** C5, as the code has it.  On a mounted view a frame that parses is
    handed to [setLastMessage] exactly once and becomes [lastMessage].
    For a message of type [batch_paused] the effect of [ScreeningPage] then
    calls [loadBatches()] once and, when a batch is selected, also
    [loadPotentials(selectedBatch.id)] once.  For a message whose type the
    page does not look for ([JobsPage] looks for [job_created] only) the
    effect makes no call. *)
Theorem live_update_refetch `{Platform} (v : view) (frame : string)
    (msg : jsval) :
  mounted (view_hook v) = true ->
  JSON_parse frame = Some msg ->
  onmessage frame = Some [SetLastMessage msg] /\
  lastMessage (view_hook (deliver v (Message frame))) = msg /\
  (forall fields sel,
     msg = VObj fields ->
     fields !! "type" = Some (VStr "batch_paused") ->
     view_page v = ScreeningPage sel ->
     view_calls (deliver v (Message frame))
     = view_calls v ++
       LoadBatches ::
       (if truthy sel then [LoadPotentials (get_opt sel "id")] else [])) /\
  (Forall (λ t, type_is msg t = false) (types_of (view_page v)) ->
   view_calls (deliver v (Message frame)) = view_calls v).
Proof.
  intros M J. destruct (deliver_Message v frame msg M J) as [L C].
  split; [by apply onmessage_parsed|]. split; [exact L|]. split.
  - intros fields sel -> T Pg. rewrite C, Pg. simpl.
    replace (Object_is_fresh (lastMessage (view_hook v)) (VObj fields))
      with false by (unfold Object_is_fresh; by destruct (lastMessage _)).
    by rewrite ScreeningPage_effect_batch_paused.
  - intros F. rewrite C, (effect_unrecognised _ _ F).
    destruct (Object_is_fresh _ _); apply app_nil_r.
Qed.

Lemma live_update_refetch_witness :
  let v := @deliver Samples.sample_platform
             (@mount_view Samples.sample_platform None Samples.sample_browser
                Screening) Opened in
  lastMessage (view_hook (@deliver Samples.sample_platform v
                            (Message Samples.frame_batch_paused)))
  = Samples.msg_batch_paused /\
  view_calls (@deliver Samples.sample_platform v
                (Message Samples.frame_batch_paused))
  = [LoadBatches; LoadBatches] /\
  view_calls (@deliver Samples.sample_platform v
                (Message Samples.frame_heartbeat))
  = [LoadBatches].
Proof.
  pose proof (@live_update_refetch Samples.sample_platform
                (@deliver Samples.sample_platform
                   (@mount_view Samples.sample_platform None
                      Samples.sample_browser Screening) Opened)
                Samples.frame_batch_paused Samples.msg_batch_paused
                eq_refl eq_refl) as (_ & L & C & _).
  pose proof (@live_update_refetch Samples.sample_platform
                (@deliver Samples.sample_platform
                   (@mount_view Samples.sample_platform None
                      Samples.sample_browser Screening) Opened)
                Samples.frame_heartbeat Samples.msg_heartbeat
                eq_refl eq_refl) as (_ & _ & _ & U).
  split; [exact L|]. split.
  - exact (C _ VNull eq_refl eq_refl eq_refl).
  - apply U. repeat constructor.
Defined.

(** C5 as stated fails on [ScreeningPage], the subscriber that looks for
    [batch_paused]: with the batch of id 3 selected, the frame
    [{"type":"batch_paused","batch_id":7}] makes the effect call
    [loadBatches()] and [loadPotentials(3)], two re-fetches. *)
Lemma batch_paused_single_refetch_counterexample :
  let v := {| view_page := ScreeningPage Samples.sample_batch;
              view_hook :=
                view_hook (@deliver Samples.sample_platform
                             (@mount_view Samples.sample_platform None
                                Samples.sample_browser Screening) Opened);
              view_calls := [LoadBatches] |} in
  let v' := @deliver Samples.sample_platform v
              (Message Samples.frame_batch_paused) in
  isConnected (view_hook v) = true /\
  lastMessage (view_hook v') = Samples.msg_batch_paused /\
  view_calls v' = view_calls v ++ [LoadBatches; LoadPotentials (VNum 3)] /\
  length (fetches (drop (length (view_calls v)) (view_calls v'))) = 2%nat /\
  length (fetches (drop (length (view_calls v)) (view_calls v'))) <> 1%nat.
Proof. repeat split. intros E. vm_compute in E. discriminate. Qed.

(* ===================================================================== *)
(** ** The permission store over time *)
(* ===================================================================== *)

Section StoreHistory.
Context `{Platform}.

Lemma resume_clears_loading (r : Api.settled Api.response) (s : store) :
  loading (run (loadPermissions_resume r) s) = false.
Proof.
  destruct r as [resp|e]; simpl; [|done].
  destruct (get_prop (Api.data resp) "permissions"); [|done].
  by destruct (get_prop (Api.data resp) "role").
Qed.

Lemma step_keeps_ready (p : provider) (ev : event) :
  loading (state p) = false -> loading (state (step p ev)) = false.
Proof.
  intros L. destruct ev as [b|r].
  - by rewrite Load_keeps_ready.
  - simpl. destruct (in_flight p); [done|]. apply resume_clears_loading.
Qed.

(** A builtin has no property whose value is [true]. *)
Lemma hasPermission_undefined_or_builtin (s : store) (k : string) :
  permissions s = from_proto ObjectPrototype k ->
  forall action, hasPermission s action = false.
Proof.
  intros E action. apply not_true_is_false.
  rewrite hasPermission_true_iff, E.
  destruct (from_proto_cases ObjectPrototype k) as [-> | ->]; simpl.
  - intros [= E']. by apply from_proto_not_true in E'.
  - discriminate.
Qed.

End StoreHistory.

(** X1. Once [loading] is cleared, no call of [loadPermissions] and no
    answer sets it again: the store never goes back to the loading
    state. *)
Theorem loading_never_set_again `{Platform} (p : provider) (evs : list event) :
  loading (state p) = false -> loading (state (steps p evs)) = false.
Proof.
  revert p. induction evs as [|ev evs IH]; intros p L; [done|].
  unfold steps. simpl. apply IH. by apply step_keeps_ready.
Qed.

Lemma loading_never_set_again_witness :
  loading (state (@steps Samples.sample_platform Samples.loaded_provider
                    [Load Samples.sample_browser;
                     Settle (Api.Rejected (Api.AxiosError None));
                     Load Samples.sample_browser])) = false.
Proof.
  apply (@loading_never_set_again Samples.sample_platform
           Samples.loaded_provider).
  reflexivity.
Defined.

(** X2. In a session without a stored token the provider never issues a
    permission fetch: after mounting, however often [loadPermissions] is
    called again, no request is in flight, [loading] is cleared and
    [permissions] and [role] are [null]. *)
Theorem no_token_no_fetch `{Platform} (b0 : browser) (evs : list event) :
  Auth.isAuthenticated b0 = false ->
  Forall (λ ev, forall b, ev = Load b -> Auth.isAuthenticated b = false) evs ->
  steps (mount b0) evs
  = {| state := {| permissions := VNull; role := VNull; loading := false |};
       in_flight := 0 |}.
Proof.
  intros A0 Hevs.
  assert (forall b, Auth.isAuthenticated b = false ->
            step {| state := {| permissions := VNull; role := VNull;
                                loading := false |}; in_flight := 0 |} (Load b)
            = {| state := {| permissions := VNull; role := VNull;
                             loading := false |}; in_flight := 0 |}) as Hload.
  { intros b A. unfold step, loadPermissions_start.
    unfold Auth.isAuthenticated, Auth.getToken in A. by rewrite A. }
  assert (mount b0
          = {| state := {| permissions := VNull; role := VNull;
                           loading := false |}; in_flight := 0 |}) as ->.
  { unfold mount, step, loadPermissions_start.
    unfold Auth.isAuthenticated, Auth.getToken in A0. by rewrite A0. }
  induction Hevs as [|ev evs Hev _ IH]; [done|].
  unfold steps in *. simpl foldl.
  destruct ev as [b|r].
  - rewrite (Hload b (Hev b eq_refl)). exact IH.
  - exact IH.
Qed.

Lemma no_token_no_fetch_witness :
  in_flight (@steps Samples.sample_platform
               (@mount Samples.sample_platform (Layout.handleLogout Samples.sample_browser))
               [Load (Layout.handleLogout Samples.sample_browser)]) = 0%nat.
Proof.
  rewrite (@no_token_no_fetch Samples.sample_platform
             (Layout.handleLogout Samples.sample_browser)
             [Load (Layout.handleLogout Samples.sample_browser)]).
  - reflexivity.
  - reflexivity.
  - constructor; [|constructor]. intros b [= <-]. reflexivity.
Defined.

(** X3. A fulfilled permission fetch replaces [permissions] and [role]
    together by the two fields of the answer and clears [loading]; an
    answer whose [data] is [null] or [undefined] changes neither, like a
    failed fetch; and after an answer object without a [permissions] key
    every permission is denied, whatever was granted before. *)
Theorem fulfilled_fetch_replaces_both `{Platform} (p : provider)
    (resp : Api.response) :
  in_flight p <> 0%nat ->
  let s' := state (step p (Settle (Api.Fulfilled resp))) in
  (forall v r,
     get_prop (Api.data resp) "permissions" = Some v ->
     get_prop (Api.data resp) "role" = Some r ->
     s' = {| permissions := v; role := r; loading := false |}) /\
  (get_prop (Api.data resp) "permissions" = None ->
   s' = {| permissions := permissions (state p); role := role (state p);
           loading := false |}) /\
  (forall fields,
     Api.data resp = VObj fields -> fields !! "permissions" = None ->
     forall action, hasPermission s' action = false).
Proof.
  intros F. destruct (in_flight p) as [|n] eqn:E; [done|]. clear F.
  simpl. rewrite E. simpl. split; [|split].
  - intros v r -> ->. reflexivity.
  - intros ->. reflexivity.
  - intros fields -> L. simpl. rewrite L. simpl.
    by apply (hasPermission_undefined_or_builtin _ "permissions").
Qed.

Lemma fulfilled_fetch_replaces_both_witness :
  let p := @refreshPermissions Samples.sample_platform Samples.sample_browser
             Samples.loaded_provider in
  let resp := {| Api.status := 200;
                 Api.data := VObj {[ "role" := VStr "recruiter" ]} |} in
  @hasPermission Samples.sample_platform
    (state (@step Samples.sample_platform p (Settle (Api.Fulfilled resp))))
    "view_candidates" = false.
Proof.
  assert (in_flight (@refreshPermissions Samples.sample_platform
                       Samples.sample_browser Samples.loaded_provider)
          <> 0%nat) as F by (vm_compute; discriminate).
  exact (proj2 (proj2 (@fulfilled_fetch_replaces_both Samples.sample_platform
                         _ {| Api.status := 200;
                              Api.data := VObj {[ "role" := VStr "recruiter" ]} |}
                         F))
           _ eq_refl eq_refl "view_candidates").
Defined.

(** X4. The three role predicates exclude each other, each holds exactly
    for its role string, and none holds while [role] is [null]. *)
Theorem role_predicates_exclusive (s : store) :
  (isAdmin s = true <-> role s = VStr "admin") /\
  (isHRManager s = true <-> role s = VStr "hr_manager") /\
  (isRecruiter s = true <-> role s = VStr "recruiter") /\
  isAdmin s && isHRManager s = false /\
  isAdmin s && isRecruiter s = false /\
  isHRManager s && isRecruiter s = false /\
  (role s = VNull ->
   isAdmin s = false /\ isHRManager s = false /\ isRecruiter s = false).
Proof.
  unfold isAdmin, isHRManager, isRecruiter.
  split; [apply strict_eq_str_iff|]. split; [apply strict_eq_str_iff|].
  split; [apply strict_eq_str_iff|].
  split; [|split; [|split]].
  - destruct (strict_eq (role s) (VStr "admin")) eqn:A; [|done].
    apply strict_eq_str_iff in A. by rewrite A.
  - destruct (strict_eq (role s) (VStr "admin")) eqn:A; [|done].
    apply strict_eq_str_iff in A. by rewrite A.
  - destruct (strict_eq (role s) (VStr "hr_manager")) eqn:A; [|done].
    apply strict_eq_str_iff in A. by rewrite A.
  - by intros ->.
Qed.

Lemma role_predicates_exclusive_witness :
  isAdmin initial = false /\ isHRManager initial = false /\
  isRecruiter initial = false.
Proof.
  exact (proj2 (proj2 (proj2 (proj2 (proj2 (proj2
           (role_predicates_exclusive initial)))))) eq_refl).
Defined.

(* ===================================================================== *)
(** ** The gated views *)
(* ===================================================================== *)

Section Gates.
Import RoleGate Layout.
Context `{Platform}.

Lemma includes_strings (names : list string) (v : jsval) :
  includes (VStr <$> names) v = true <-> exists r, v = VStr r /\ r ∈ names.
Proof.
  unfold includes. rewrite existsb_exists. split.
  - intros (x & Hin & E). apply list_elem_of_In, list_elem_of_fmap in Hin
      as (r & -> & Hr).
    exists r. split; [|done]. destruct v; try discriminate.
    simpl in E. apply String.eqb_eq in E. by subst.
  - intros (r & -> & Hr). exists (VStr r). split.
    + apply list_elem_of_In, list_elem_of_fmap. by exists r.
    + simpl. apply String.eqb_refl.
Qed.

Lemma item_visible_iff (s : store) (it : item) :
  item_visible s it = true <->
  permission it = None \/ permission it = Some EmptyString \/
  exists p, permission it = Some p /\ hasPermission s p = true.
Proof.
  unfold item_visible. destruct (permission it) as [p|]; simpl.
  - destruct (String.eqb_spec p EmptyString) as [->|N]; simpl.
    + split; [auto|done].
    + split.
      * intros G. right. right. by exists p.
      * intros [|[[=]|(q & [= <-] & G)]]; done.
  - split; [auto|done].
Qed.

(** Where no permission is granted, only the entries without a permission
    are visible. *)
Lemma item_visible_denied (s : store) (it : item) :
  (forall action, hasPermission s action = false) ->
  item_visible s it = negb (item_truthy (permission it)).
Proof.
  intros D. unfold item_visible.
  destruct (permission it) as [p|]; [by rewrite D, orb_false_r | done].
Qed.

Lemma item_visible_denied_nav (s : store) :
  (forall action, hasPermission s action = false) ->
  visibleNavigation s navigation
  = [ {| section := "Personal";
         items := [ {| name := "My Notes"; path := "/my-notes";
                       permission := None; badge := None |} ] |} ].
Proof.
  intros D. unfold visibleNavigation.
  rewrite (map_ext _ (λ sec, {| section := section sec;
                                items := filter (λ it, negb (item_truthy (permission it)) = true)
                                                (items sec) |})).
  - reflexivity.
  - intros sec. f_equal. apply list_filter_iff. intros it.
    by rewrite (item_visible_denied s it D).
Qed.

End Gates.

(** X5. [Can] applies the gate of [withPermission]: below the same
    ancestors and for the same action, where [withPermission] renders the
    component [Can] returns its children, where it renders the loading
    placeholder [Can] returns [null], and where it renders the access-denied
    view [Can] returns its fallback; outside a provider both throw. *)
Theorem Can_agrees_with_withPermission `{Platform} {C P : Type}
    (Component : C) (props : P) (action : string)
    (children fallback : element C P) (ancestors : list ancestor) :
  (withPermission Component action props ancestors
   = Return (Render Component props) ->
   Can action children fallback ancestors = Return children) /\
  (withPermission Component action props ancestors
   = Return loading_placeholder ->
   Can action children fallback ancestors = Return Null) /\
  (withPermission Component action props ancestors = Return access_denied ->
   Can action children fallback ancestors = Return fallback) /\
  (forall m,
     withPermission Component action props ancestors = Throw m <->
     Can action children fallback ancestors = Throw m).
Proof.
  unfold withPermission, Can.
  destruct (usePermissions ancestors) as [context|m0].
  - destruct (loading context); [|destruct (hasPermission context action)];
      simpl; (split; [|split; [|split]]); try done.
  - split; [|split; [|split]]; done.
Qed.

(** X6. Once the store has loaded, [RoleOnly] with a list of role names
    shows its children exactly when [role] is one of these strings and its
    fallback otherwise, in particular while [role] is [null]; the gate for
    ['admin'] alone is [isAdmin]. *)
Theorem RoleOnly_by_role_name {C P : Type} (names : list string)
    (children fallback : element C P) (context : store)
    (ancestors : list ancestor) :
  useContext ancestors = Some context ->
  loading context = false ->
  ((exists r, role context = VStr r /\ r ∈ names) ->
   RoleGate.RoleOnly (VStr <$> names) children fallback ancestors
   = Return children) /\
  ((forall r, role context = VStr r -> r ∉ names) ->
   RoleGate.RoleOnly (VStr <$> names) children fallback ancestors
   = Return fallback) /\
  RoleGate.includes [VStr "admin"] (role context) = isAdmin context.
Proof.
  intros U L. unfold RoleGate.RoleOnly, usePermissions. rewrite U, L.
  split; [|split].
  - intros Hr. apply includes_strings in Hr. by rewrite Hr.
  - intros Hn.
    destruct (RoleGate.includes (VStr <$> names) (role context)) eqn:I; [|done].
    apply includes_strings in I as (r & E & Hr). by destruct (Hn r E).
  - unfold RoleGate.includes, isAdmin. simpl.
    destruct (role context); simpl; try done.
    by rewrite orb_false_r, String.eqb_sym.
Qed.

Lemma RoleOnly_by_role_name_witness :
  @RoleGate.RoleOnly string unit (VStr <$> ["admin"; "hr_manager"])
    (Render "AdminPanel" tt) Null
    [PermissionProvider Samples.sample_store]
  = Return (Render "AdminPanel" tt).
Proof.
  apply (proj1 (@RoleOnly_by_role_name string unit ["admin"; "hr_manager"]
                  (Render "AdminPanel" tt) Null Samples.sample_store
                  [PermissionProvider Samples.sample_store] eq_refl eq_refl)).
  exists "admin". split; [reflexivity|]. by left.
Defined.

(** X7. The navigation of [Layout] shows an entry only if it names no
    permission or a granted one, shows no section without entries, and
    invents nothing: every visible entry is an entry of the section of the
    same name in the navigation. *)
Theorem visibleNavigation_sound `{Platform} (s : store)
    (nav : list Layout.nav_section) (sec : Layout.nav_section)
    (it : Layout.item) :
  sec ∈ Layout.visibleNavigation s nav ->
  it ∈ Layout.items sec ->
  (Layout.permission it = None \/ Layout.permission it = Some EmptyString \/
   exists p, Layout.permission it = Some p /\ hasPermission s p = true) /\
  (exists sec0, sec0 ∈ nav /\ Layout.section sec0 = Layout.section sec /\
                it ∈ Layout.items sec0) /\
  (forall sec', sec' ∈ Layout.visibleNavigation s nav -> Layout.items sec' <> []).
Proof.
  unfold Layout.visibleNavigation. intros Hsec Hit.
  apply list_elem_of_filter in Hsec as [_ Hsec].
  apply list_elem_of_fmap in Hsec as (sec0 & -> & Hsec0). simpl in Hit.
  apply list_elem_of_filter in Hit as [V Hit].
  split; [by apply item_visible_iff|]. split.
  - by exists sec0.
  - intros sec' Hsec'. apply list_elem_of_filter in Hsec' as [N _].
    intros E. rewrite E in N. discriminate.
Qed.

Lemma visibleNavigation_sound_witness :
  exists sec0, sec0 ∈ Layout.navigation /\
    Layout.section sec0 = "Personal" /\
    {| Layout.name := "My Notes"; Layout.path := "/my-notes";
       Layout.permission := None; Layout.badge := None |} ∈ Layout.items sec0.
Proof.
  refine (proj1 (proj2 (@visibleNavigation_sound Samples.sample_platform
                   initial Layout.navigation
                   {| Layout.section := "Personal";
                      Layout.items :=
                        [ {| Layout.name := "My Notes"; Layout.path := "/my-notes";
                             Layout.permission := None; Layout.badge := None |} ] |}
                   _ _ _))).
  - vm_compute. by left.
  - by left.
Defined.

(** X8. Where the store grants nothing, the navigation of [Layout] consists
    of the section Personal with the entry My Notes alone. *)
Theorem navigation_without_permissions `{Platform} (s : store) :
  (forall action, hasPermission s action = false) ->
  Layout.visibleNavigation s Layout.navigation
  = [ {| Layout.section := "Personal";
         Layout.items :=
           [ {| Layout.name := "My Notes"; Layout.path := "/my-notes";
                Layout.permission := None; Layout.badge := None |} ] |} ].
Proof.
  apply item_visible_denied_nav.
Qed.

Lemma navigation_without_permissions_witness :
  length (@Layout.visibleNavigation Samples.sample_platform initial
            Layout.navigation) = 1%nat.
Proof.
  rewrite (@navigation_without_permissions Samples.sample_platform initial).
  - reflexivity.
  - intros action. reflexivity.
Defined.

Section FailClosed.
Context `{Platform}.

Lemma hasAny_denied (s : store) (actions : list string) :
  (forall action, hasPermission s action = false) ->
  hasAnyPermission s actions = false.
Proof.
  intros D. unfold hasAnyPermission. rewrite some_exhausts; [done|].
  apply Forall_forall. intros a _. apply D.
Qed.

Lemma mount_null_until_fulfilled (b : browser) (evs : list event) :
  Forall (λ ev, forall resp, ev <> Settle (Api.Fulfilled resp)) evs ->
  permissions (state (steps (mount b) evs)) = VNull /\
  role (state (steps (mount b) evs)) = VNull.
Proof.
  intros Hevs.
  apply (null_until_fulfilled {| state := initial; in_flight := 0 |}
           (Load b :: evs)); try done.
  constructor; [discriminate | done].
Qed.

End FailClosed.

(** X9. [UsersPage] shows the user management only when [manage_users] is
    granted (and its own list has loaded) and the access-denied card
    whenever it is not; it does not look at [loading] of the store, so
    while the store is still loading it shows the card where
    [withPermission] shows the loading placeholder. *)
Theorem UsersPage_gate `{Platform} (context : store) (listLoading : bool)
    (ancestors : list ancestor) :
  useContext ancestors = Some context ->
  (UsersPage.render listLoading ancestors = Return UsersPage.UserManagement <->
   hasPermission context "manage_users" = true /\ listLoading = false) /\
  (hasPermission context "manage_users" = false ->
   UsersPage.render listLoading ancestors = Return UsersPage.AccessDenied) /\
  (loading context = true -> permissions context = VNull ->
   UsersPage.render listLoading ancestors = Return UsersPage.AccessDenied /\
   forall (C P : Type) (Component : C) (props : P),
     withPermission Component "manage_users" props ancestors
     = Return loading_placeholder).
Proof.
  intros U. unfold UsersPage.render, withPermission, usePermissions. rewrite U.
  split; [|split].
  - destruct (hasPermission context "manage_users"), listLoading; simpl;
      split; try done; intros [? ?]; done.
  - by intros ->.
  - intros L N. rewrite L.
    rewrite (hasPermission_not_loaded context "manage_users")
      by (by rewrite N).
    done.
Qed.

Lemma UsersPage_gate_witness :
  @UsersPage.render Samples.sample_platform false
    [OtherComponent "Layout"; PermissionProvider initial]
  = Return UsersPage.AccessDenied.
Proof.
  exact (proj1 (proj2 (proj2 (@UsersPage_gate Samples.sample_platform initial
                                 false
                                 [OtherComponent "Layout"; PermissionProvider initial]
                                 eq_refl)) eq_refl eq_refl)).
Defined.

(** X10. From the mount of the provider until a permission fetch is
    fulfilled, whatever is called and whatever fails, the store grants
    nothing to any consumer: [hasPermission] and [hasAnyPermission] are
    [false] and [isAdmin()] is [false], [withPermission] and [Can] render
    no gated content, [UsersPage] shows its access-denied card and the
    navigation shows My Notes only. *)
Theorem fail_closed_until_fulfilled `{Platform} (b : browser)
    (evs : list event) :
  Forall (λ ev, forall resp, ev <> Settle (Api.Fulfilled resp)) evs ->
  let s := state (steps (mount b) evs) in
  (forall action, hasPermission s action = false) /\
  (forall actions, hasAnyPermission s actions = false) /\
  isAdmin s = false /\
  (forall (C P : Type) (Component : C) (props : P) action ancestors e,
     useContext ancestors = Some s ->
     withPermission Component action props ancestors = Return e ->
     rendered e = []) /\
  (forall (C P : Type) action (children fallback : element C P) ancestors,
     useContext ancestors = Some s ->
     Can action children fallback ancestors = Return Null \/
     Can action children fallback ancestors = Return fallback) /\
  (forall listLoading ancestors,
     useContext ancestors = Some s ->
     UsersPage.render listLoading ancestors = Return UsersPage.AccessDenied) /\
  length (Layout.visibleNavigation s Layout.navigation) = 1%nat.
Proof.
  intros Hevs s.
  destruct (mount_null_until_fulfilled b evs Hevs) as [Np Nr].
  destruct (null_store_denies s Np Nr) as [D A].
  split; [exact D|]. split; [intros; by apply hasAny_denied|].
  split; [exact A|]. split; [|split; [|split]].
  - intros C P Component props action ancestors e U.
    unfold withPermission, usePermissions. rewrite U, D.
    destruct (loading s); simpl; by intros [= <-].
  - intros C P action children fallback ancestors U.
    unfold Can, usePermissions. rewrite U, D.
    destruct (loading s); simpl; auto.
  - intros listLoading ancestors U.
    unfold UsersPage.render, usePermissions. by rewrite U, D.
  - rewrite (item_visible_denied_nav s D). reflexivity.
Qed.

Lemma fail_closed_until_fulfilled_witness :
  isAdmin (state (@steps Samples.sample_platform
                    (@mount Samples.sample_platform Samples.sample_browser)
                    [Settle (Api.Rejected (Api.AxiosError None));
                     Load Samples.sample_browser])) = false.
Proof.
  refine (proj1 (proj2 (proj2 (@fail_closed_until_fulfilled
            Samples.sample_platform Samples.sample_browser
            [Settle (Api.Rejected (Api.AxiosError None));
             Load Samples.sample_browser] _)))).
  repeat constructor; discriminate.
Defined.

(* ===================================================================== *)
(** ** The client and the session *)
(* ===================================================================== *)

Section ClientFacts.
Import Api.


Lemma request_interceptor_no_token (b : browser) (cfg : config) :
  Auth.isAuthenticated b = false -> request_interceptor b cfg = cfg.
Proof.
  unfold Auth.isAuthenticated, Auth.getToken, request_interceptor.
  destruct (getItem b "token") as [token|]; [|done]. by intros ->.
Qed.

Lemma mergeConfig_lookup (cfg : config) (k : string) :
  headers (mergeConfig cfg) !! k
  = match headers cfg !! k with
    | Some v => Some v
    | None => defaults !! k
    end.
Proof.
  simpl. destruct (headers cfg !! k) as [v|] eqn:E.
  - by apply lookup_union_Some_l.
  - by rewrite lookup_union_r.
Qed.

(** The storage after the rejection handler has seen a 401. *)
Lemma response_rejected_401 (r : response) (b : browser) :
  status r = 401 ->
  response_rejected (AxiosError (Some r)) b
  = navigate "/login" (Auth.logout b).
Proof. unfold response_rejected. simpl. by intros ->. Qed.

Lemma logout_not_authenticated (b : browser) :
  Auth.isAuthenticated (Auth.logout b) = false.
Proof.
  unfold Auth.isAuthenticated, Auth.getToken, Auth.logout, getItem. simpl.
  rewrite lookup_delete_ne by done. by rewrite lookup_delete_eq.
Qed.

Lemma logout_other_keys (b : browser) (k : string) :
  k <> "token" -> k <> "user" -> getItem (Auth.logout b) k = getItem b k.
Proof.
  intros Nt Nu. unfold Auth.logout, getItem. simpl.
  by rewrite !lookup_delete_ne.
Qed.

End ClientFacts.


(** X12. Only an answer with status 401 touches the session: for every
    other outcome of a call (success, any other error status, no answer at
    all) storage and location are left as they are.  A call is fulfilled
    exactly for a status from 200 to 299. *)
Theorem only_401_ends_session (t : Api.transport) (b : browser) :
  ((Api.receive t b).2 <> b ->
   exists r, t = Api.Answered r /\ Api.status r = 401) /\
  (forall r,
     (Api.receive t b).1 = Api.Fulfilled r <->
     t = Api.Answered r /\ 200 <= Api.status r < 300) /\
  (t = Api.NoAnswer ->
   Api.receive t b = (Api.Rejected (Api.AxiosError None), b)).
Proof.
  unfold Api.receive, Api.settle, Api.validateStatus.
  split; [|split].
  - destruct t as [r|]; simpl; [|done].
    destruct ((200 <=? Api.status r) && (Api.status r <? 300)); simpl; [done|].
    unfold Api.response_rejected. simpl.
    destruct (Api.status r =? 401) eqn:E; [|done].
    intros _. exists r. split; [done|]. lia.
  - intros r0. destruct t as [r|]; simpl.
    + destruct ((200 <=? Api.status r) && (Api.status r <? 300)) eqn:V; simpl.
      * apply andb_true_iff in V as [V1 V2].
        split.
        -- intros [= <-]. split; [done|]. lia.
        -- by intros [[= <-] _].
      * split; [done|]. intros [[= <-] R].
        apply andb_false_iff in V as [V|V]; lia.
    + split; [done|]. by intros [? _].
  - by intros ->.
Qed.

Lemma only_401_ends_session_witness :
  exists r,
    Api.Answered {| Api.status := 401; Api.data := VNull |} = Api.Answered r /\
    Api.status r = 401.
Proof.
  apply (proj1 (only_401_ends_session
                  (Api.Answered {| Api.status := 401; Api.data := VNull |})
                  Samples.sample_browser)).
  intros E. apply (f_equal location_href) in E. discriminate E.
Defined.

(** X13. A 401 answer and the logout button end the session in the same
    way: storage is what [logout] leaves (token and profile removed, every
    other key kept) and the location is the login view.  Afterwards no call
    of the client carries a token of its own and [loadPermissions] issues
    no fetch. *)
Theorem session_end (b : browser) (r : Api.response) :
  Api.status r = 401 ->
  let b' := (Api.receive (Api.Answered r) b).2 in
  b' = Layout.handleLogout b /\
  localStorage b' = localStorage (Auth.logout b) /\
  location_href b' = "/login" /\
  Auth.isAuthenticated b' = false /\
  (forall k, k <> "token" -> k <> "user" -> getItem b' k = getItem b k) /\
  (forall cfg,
     Api.headers (Api.send b' cfg) !! "Authorization"
     = Api.headers cfg !! "Authorization") /\
  loadPermissions_start b' = ([SetLoading false; SetLoading false], None).
Proof.
  intros S. unfold Api.receive. rewrite (settle_401 r S). simpl.
  rewrite (response_rejected_401 r b S).
  assert (Auth.isAuthenticated (navigate "/login" (Auth.logout b)) = false)
    as A by apply logout_not_authenticated.
  split; [done|]. split; [done|]. split; [done|]. split; [exact A|].
  split; [|split].
  - intros k Nt Nu. by apply logout_other_keys.
  - intros cfg. unfold Api.send.
    rewrite (request_interceptor_no_token _ _ A), mergeConfig_lookup.
    by destruct (Api.headers cfg !! "Authorization").
  - unfold loadPermissions_start.
    unfold Auth.isAuthenticated, Auth.getToken in A. by rewrite A.
Qed.

Lemma session_end_witness :
  Auth.isAuthenticated
    (Api.receive (Api.Answered {| Api.status := 401; Api.data := VNull |})
       Samples.sample_browser).2 = false.
Proof.
  exact (proj1 (proj2 (proj2 (proj2
           (session_end Samples.sample_browser
              {| Api.status := 401; Api.data := VNull |} eq_refl))))).
Defined.

(** X14. [login] with an answer whose [access_token] is a non-empty string
    stores exactly that token, so that the session is authenticated and the
    next call of the client carries it; [logout] afterwards leaves storage
    as [logout] would have left it before the login.  An answer with a
    falsy [access_token] stores nothing. *)
Theorem login_logout_round_trip `{Platform} (ToString stringify : jsval -> string)
    (data : jsval) (b : browser) (access_token : jsval) :
  get_prop data "access_token" = Some access_token ->
  (truthy access_token = false ->
   Services.login_store ToString stringify data b = Some b) /\
  (forall t,
     access_token = VStr t -> t <> EmptyString ->
     exists b',
       Services.login_store ToString stringify data b = Some b' /\
       Auth.getToken b' = Some t /\
       Auth.isAuthenticated b' = true /\
       getItem b' "user" = Some (stringify (get_opt data "user")) /\
       (forall cfg,
          Api.headers (Api.send b' cfg) !! "Authorization"
          = Some ("Bearer " +:+ t)) /\
       localStorage (Auth.logout b') = localStorage (Auth.logout b)).
Proof.
  intros G. unfold Services.login_store. rewrite G. split.
  - by intros ->.
  - intros t -> N. simpl.
    destruct (String.eqb_spec t EmptyString) as [->|_]; [done|]. simpl.
    eexists. split; [reflexivity|].
    assert (getItem (setItem "user" (stringify (get_opt data "user"))
                       (setItem "token" t b)) "token" = Some t) as Gt.
    { unfold getItem, setItem. simpl.
      rewrite lookup_insert_ne by done. apply lookup_insert_eq. }
    split; [exact Gt|]. split.
    { unfold Auth.isAuthenticated, Auth.getToken. rewrite Gt. simpl.
      by destruct (String.eqb_spec t EmptyString). }
    split; [apply lookup_insert_eq|]. split.
    { intros cfg. by apply request_interceptor_attaches. }
    unfold Auth.logout, removeItem, setItem. simpl.
    apply map_eq. intros k.
    destruct (decide (k = "user")) as [->|Nu];
      [by rewrite !lookup_delete_eq|].
    rewrite !(lookup_delete_ne _ "user" k) by done.
    destruct (decide (k = "token")) as [->|Nt];
      [by rewrite !lookup_delete_eq|].
    rewrite !(lookup_delete_ne _ "token" k) by done.
    by rewrite !lookup_insert_ne.
Qed.

Lemma login_logout_round_trip_witness :
  exists b',
    @Services.login_store Samples.sample_platform (λ _, "?") (λ _, "{}")
      (VObj {[ "access_token" := VStr "tok42" ]})
      (Auth.logout Samples.sample_browser) = Some b' /\
    Auth.getToken b' = Some "tok42".
Proof.
  assert (@get_prop Samples.sample_platform
            (VObj {[ "access_token" := VStr "tok42" ]}) "access_token"
          = Some (VStr "tok42")) as G by reflexivity.
  destruct (proj2 (@login_logout_round_trip Samples.sample_platform
                     (λ _, "?") (λ _, "{}")
                     (VObj {[ "access_token" := VStr "tok42" ]})
                     (Auth.logout Samples.sample_browser)
                     (VStr "tok42") G)
              "tok42" eq_refl)
    as (b' & L & T & _).
  - discriminate.
  - exists b'. split; [exact L | exact T].
Defined.

(** X15. [ActivityPage.loadActivities] goes around the client.  With a
    stored token its [Authorization] header is the one the client attaches;
    without a token it still sends the header, spelled [Bearer null], where
    the client sends none; and a 401 answer to it leaves storage and
    location as they are, where the same answer through the client ends
    the session. *)
Theorem ActivityPage_outside_the_client (b : browser) :
  (Auth.isAuthenticated b = true ->
   Api.headers (ActivityPage_request b) !! "Authorization"
   = Api.headers (Api.send b (Api.get "/api/activity")) !! "Authorization") /\
  (getItem b "token" = None ->
   Api.headers (ActivityPage_request b) !! "Authorization"
   = Some "Bearer null" /\
   Api.headers (Api.send b (Api.get "/api/activity")) !! "Authorization"
   = None) /\
  (forall r,
     Api.status r = 401 ->
     (axios_receive (Api.Answered r) b).2 = b /\
     (Auth.isAuthenticated b = true ->
      (Api.receive (Api.Answered r) b).2 <> b)).
Proof.
  split; [|split].
  - intros A. destruct (isAuthenticated_token b A) as (token & G & N).
    unfold Api.send. rewrite (request_interceptor_attaches b _ token G N).
    unfold ActivityPage_request. simpl. rewrite G. apply lookup_insert_eq.
  - intros G. split.
    + unfold ActivityPage_request. simpl. rewrite G. apply lookup_insert_eq.
    + unfold Api.send, Api.request_interceptor. by rewrite G.
  - intros r S. split; [done|]. intros A E.
    pose proof (f_equal Auth.isAuthenticated E) as E'.
    unfold Api.receive in E'. rewrite (settle_401 r S) in E'. simpl in E'.
    rewrite (response_rejected_401 r b S) in E'.
    change (Auth.isAuthenticated (navigate "/login" (Auth.logout b)))
      with (Auth.isAuthenticated (Auth.logout b)) in E'.
    rewrite logout_not_authenticated, A in E'. discriminate.
Qed.

Lemma ActivityPage_outside_the_client_witness :
  Api.headers (ActivityPage_request Samples.sample_browser) !! "Authorization"
  = Some "Bearer abc123".
Proof.
  rewrite (proj1 (ActivityPage_outside_the_client Samples.sample_browser)
             eq_refl).
  reflexivity.
Defined.

(* ===================================================================== *)
(** ** The life of a socket *)
(* ===================================================================== *)

Section SocketLife.
Context `{Platform}.




End SocketLife.


(** X17. The cleanup of the hook closes the socket only when it is open.
    A socket that is still connecting when its view is unmounted is left
    alone and stays live; after the cleanup the socket is live exactly in
    that case. *)
Theorem unmount_closes_open_socket_only (h : hook) :
  mounted (unmount h) = false /\
  (ws_readyState (websocket h) = OPEN ->
   ws_readyState (websocket (unmount h)) = CLOSING) /\
  (ws_readyState (websocket h) <> OPEN ->
   websocket (unmount h) = websocket h) /\
  (is_live (websocket (unmount h)) = true <->
   ws_readyState (websocket h) = CONNECTING).
Proof.
  unfold unmount, is_live.
  destruct h as [[u rs] w c l m]. simpl. destruct rs; simpl;
    (split; [done|]); (split; [done|]); (split; [done|]); split; done.
Qed.



Lemma substring_whole (s : string) (n : nat) :
  (String.length s <= n)%nat -> String.substring 0 n s = s.
Proof.
  revert n. induction s as [|c s IH]; intros n L.
  - by destruct n.
  - destruct n as [|n]; simpl in *; [lia|]. f_equal. apply IH. lia.
Qed.

Lemma prefix_empty (s : string) : String.prefix EmptyString s = true.
Proof. by destruct s. Qed.

(** X19. The socket address follows the scheme of [VITE_API_URL]: an
    address starting with [https://] becomes [wss://], one starting with
    [http://] becomes [ws://], and without the variable (unset or empty)
    the address is [ws://localhost:8000].  The replacement of the other
    scheme text still applies to its first occurrence in the rest of the
    address. *)
Theorem wsUrl_scheme (rest : string) :
  wsUrl (Some ("https://" +:+ rest))
  = "wss://" +:+ replace "http://" "ws://" rest /\
  wsUrl (Some ("http://" +:+ rest))
  = "ws://" +:+ replace "https://" "wss://" rest /\
  wsUrl None = "ws://localhost:8000" /\
  wsUrl (Some EmptyString) = "ws://localhost:8000".
Proof.
  split; [|split; [|split]]; try reflexivity.
  - unfold wsUrl. cbv [String.append]. simpl.
    rewrite prefix_empty, substring_whole by lia.
    cbv [String.append]. simpl. reflexivity.
  - unfold wsUrl. cbv [String.append]. simpl.
    rewrite prefix_empty, substring_whole by lia. reflexivity.
Qed.

(* ===================================================================== *)
(** ** The screening page *)
(* ===================================================================== *)

Section ScreeningFacts.
Import ScreeningLoaders.
Context `{Platform}.


Lemma status_count_cons (s : string) (p : jsval) (rest : list jsval) :
  status_count s (p :: rest)
  = ((if strict_eq (get_opt p "status") (VStr s) then 1 else 0)
     + status_count s rest)%nat.
Proof.
  unfold status_count. rewrite filter_cons.
  destruct (strict_eq (get_opt p "status") (VStr s)) eqn:E.
  - by rewrite decide_True.
  - by rewrite decide_False.
Qed.

Lemma forEach_counts (st st' : stats) (potentials : list jsval) :
  forEach st potentials = Some st' ->
  total st' = total st /\
  pending st' = (pending st + status_count "pending" potentials)%nat /\
  toCall st' = (toCall st + status_count "to_be_called" potentials)%nat /\
  interested st' = (interested st + status_count "interested" potentials)%nat /\
  waiting st' = (waiting st + status_count "waiting_resume" potentials)%nat /\
  notInterested st'
  = (notInterested st + status_count "not_interested" potentials)%nat.
Proof.
  revert st. induction potentials as [|p rest IH]; intros st.
  - intros [= <-]. unfold status_count. simpl. repeat split; lia.
  - simpl. unfold count.
    destruct (get_prop p "status") as [status|] eqn:G; [|done].
    intros F. apply IH in F as (T & P & C & I & W & N).
    rewrite T, P, C, I, W, N. clear T P C I W N IH.
    rewrite !status_count_cons. unfold get_opt. rewrite G.
    destruct status as [| | | |s| | |]; simpl;
      try (repeat split; lia).
    destruct (String.eqb_spec s "pending") as [->|];
      [simpl; repeat split; lia|].
    destruct (String.eqb_spec s "to_be_called") as [->|];
      [simpl; repeat split; lia|].
    destruct (String.eqb_spec s "interested") as [->|];
      [simpl; repeat split; lia|].
    destruct (String.eqb_spec s "waiting_resume") as [->|];
      [simpl; repeat split; lia|].
    destruct (String.eqb_spec s "not_interested") as [->|];
      [simpl; repeat split; lia|].
    simpl. repeat split; lia.
Qed.

Lemma forEach_throws (st : stats) (potentials : list jsval) :
  forEach st potentials = None <->
  exists p, p ∈ potentials /\ (p = VNull \/ p = VUndefined).
Proof.
  revert st. induction potentials as [|p rest IH]; intros st; simpl.
  - split; [done|]. intros (p & Hin & _). by apply elem_of_nil in Hin.
  - unfold count. destruct (get_prop p "status") as [status|] eqn:G.
    + rewrite IH. split.
      * intros (q & Hin & Hq). exists q. split; [by right | done].
      * intros (q & Hin & Hq). apply elem_of_cons in Hin as [->|Hin].
        -- destruct Hq as [-> | ->]; discriminate G.
        -- by exists q.
    + split; [|done]. intros _. exists p. split; [by left|].
      destruct p; try discriminate G; auto.
Qed.

End ScreeningFacts.

Lemma ScreeningPage_effect_shape `{Platform} (msg sel : jsval) :
  ScreeningPage_effect msg sel = [] \/
  ScreeningPage_effect msg sel = [LoadBatches] \/
  (truthy sel = true /\
   (ScreeningPage_effect msg sel
    = [LoadPotentials (get_opt sel "id"); LoadActivities (get_opt sel "id")] \/
    ScreeningPage_effect msg sel = [LoadBatches; SetSelectedBatch VNull] \/
    ScreeningPage_effect msg sel
    = [LoadBatches; LoadPotentials (get_opt sel "id")])).
Proof.
  unfold ScreeningPage_effect, type_is.
  destruct (get_opt msg "type") as [| | | |s| | |]; simpl; auto.
  destruct (String.eqb_spec s "potential_promoted") as [->|];
    [|destruct (String.eqb_spec s "potential_rejected") as [->|]].
  1,2: simpl; destruct (truthy sel); simpl; auto 6.
  simpl.
  destruct ((s =? "batch_paused")%string || (s =? "batch_resumed")%string
            || (s =? "batch_cancelled")%string || (s =? "batch_deleted")%string);
    [|auto].
  destruct (truthy sel); [|auto].
  destruct ((s =? "batch_deleted")%string
            && strict_eq (get_opt msg "batch_id") (get_opt sel "id"));
    auto 8.
Qed.

(** X20. Whatever the message and the selection, the [lastMessage] effect
    of [ScreeningPage] makes at most two calls, each of them
    [loadBatches()], [loadPotentials] or [loadActivities] of the selected
    batch, or [setSelectedBatch(null)]; it calls [loadBatches()] at most
    once, and without a selected batch it calls nothing else. *)
Theorem ScreeningPage_effect_calls `{Platform} (msg sel : jsval) :
  (length (ScreeningPage_effect msg sel) <= 2)%nat /\
  Forall (λ c, c = LoadBatches \/
               c = LoadPotentials (get_opt sel "id") \/
               c = LoadActivities (get_opt sel "id") \/
               c = SetSelectedBatch VNull)
         (ScreeningPage_effect msg sel) /\
  (length (filter (λ c, match c with LoadBatches => true | _ => false end = true)
                  (ScreeningPage_effect msg sel)) <= 1)%nat /\
  (truthy sel = false ->
   Forall (λ c, c = LoadBatches) (ScreeningPage_effect msg sel)).
Proof.
  destruct (ScreeningPage_effect_shape msg sel)
    as [-> | [-> | [T [-> | [-> | ->]]]]].
  - split; [simpl; lia|]. split; [constructor|]. split; [simpl; lia|].
    intros _. constructor.
  - split; [simpl; lia|]. split; [repeat constructor; auto|].
    split; [rewrite filter_cons_True by done; simpl; lia|].
    intros _. by repeat constructor.
  - split; [simpl; lia|].
    split; [repeat (apply Forall_cons_2; [auto 6|]); apply Forall_nil_2|].
    split; [rewrite !filter_cons_False by done; simpl; lia|].
    intros F. rewrite T in F. discriminate F.
  - split; [simpl; lia|].
    split; [repeat (apply Forall_cons_2; [auto 6|]); apply Forall_nil_2|].
    split; [rewrite filter_cons_True, filter_cons_False by done; simpl; lia|].
    intros F. rewrite T in F. discriminate F.
  - split; [simpl; lia|].
    split; [repeat (apply Forall_cons_2; [auto 6|]); apply Forall_nil_2|].
    split; [rewrite filter_cons_True, filter_cons_False by done; simpl; lia|].
    intros F. rewrite T in F. discriminate F.
Qed.

Lemma ScreeningPage_effect_calls_witness :
  Forall (λ c, c = LoadBatches)
    (@ScreeningPage_effect Samples.sample_platform Samples.msg_batch_paused
       VNull).
Proof.
  exact (proj2 (proj2 (proj2 (@ScreeningPage_effect_calls
           Samples.sample_platform Samples.msg_batch_paused VNull))) eq_refl).
Defined.

(** X21. A [batch_deleted] message for the selected batch makes the effect
    of [ScreeningPage] call [loadBatches()] and clear the selection without
    fetching the potentials of the deleted batch; a [batch_deleted] message
    for any other batch calls [loadBatches()] and re-fetches the potentials
    of the selected one. *)
Theorem batch_deleted_clears_selection `{Platform} (v : view) (frame : string)
    (fields : gmap string jsval) (sel : jsval) :
  mounted (view_hook v) = true ->
  view_page v = ScreeningPage sel ->
  truthy sel = true ->
  JSON_parse frame = Some (VObj fields) ->
  fields !! "type" = Some (VStr "batch_deleted") ->
  (strict_eq (get_opt (VObj fields) "batch_id") (get_opt sel "id") = true ->
   ScreeningPage_effect (VObj fields) sel = [LoadBatches; SetSelectedBatch VNull] /\
   view_page (deliver v (Message frame)) = ScreeningPage VNull) /\
  (strict_eq (get_opt (VObj fields) "batch_id") (get_opt sel "id") = false ->
   ScreeningPage_effect (VObj fields) sel
   = [LoadBatches; LoadPotentials (get_opt sel "id")] /\
   view_page (deliver v (Message frame)) = ScreeningPage sel).
Proof.
  intros M Pg T J Ty.
  assert (forall same,
            strict_eq (get_opt (VObj fields) "batch_id") (get_opt sel "id") = same ->
            ScreeningPage_effect (VObj fields) sel
            = LoadBatches :: (if same then [SetSelectedBatch VNull]
                              else [LoadPotentials (get_opt sel "id")])) as E.
  { intros same S. unfold ScreeningPage_effect, type_is.
    rewrite (get_opt_obj fields "type" _ Ty), T, S. by destruct same. }
  assert (forall same,
            strict_eq (get_opt (VObj fields) "batch_id") (get_opt sel "id") = same ->
            view_page (deliver v (Message frame))
            = if same then ScreeningPage VNull else ScreeningPage sel) as D.
  { intros same S. unfold deliver. rewrite (onmessage_parsed frame _ J).
    unfold set_state. rewrite M. simpl.
    replace (Object_is_fresh (lastMessage (view_hook v)) (VObj fields))
      with false by (unfold Object_is_fresh; by destruct (lastMessage _)).
    simpl. rewrite Pg. simpl. rewrite (E same S). by destruct same. }
  split; intros S; split; first [by rewrite (E _ S) | by rewrite (D _ S)].
Qed.

Lemma batch_deleted_clears_selection_witness :
  @ScreeningPage_effect Samples.sample_platform
    (VObj {[ "type" := VStr "batch_deleted"; "batch_id" := VNum 3 ]})
    Samples.sample_batch
  = [LoadBatches; SetSelectedBatch VNull].
Proof.
  pose (P := {| proto_has := λ _ _, false;
                JSON_parse := λ _, Some (VObj {[ "type" := VStr "batch_deleted";
                                                 "batch_id" := VNum 3 ]});
                encodeURIComponent := λ t, t |}).
  change (@ScreeningPage_effect Samples.sample_platform
            (VObj {[ "type" := VStr "batch_deleted"; "batch_id" := VNum 3 ]})
            Samples.sample_batch)
    with (@ScreeningPage_effect P
            (VObj {[ "type" := VStr "batch_deleted"; "batch_id" := VNum 3 ]})
            Samples.sample_batch).
  refine (proj1 (proj1 (@batch_deleted_clears_selection P
            {| view_page := ScreeningPage Samples.sample_batch;
               view_hook := @useWebSocket P None Samples.sample_browser;
               view_calls := [] |}
            EmptyString
            {[ "type" := VStr "batch_deleted"; "batch_id" := VNum 3 ]}
            Samples.sample_batch eq_refl eq_refl eq_refl eq_refl _) _)).
  - reflexivity.
  - reflexivity.
Defined.



(** X23. The counters [loadPotentials] computes are exact: each of the
    five counts the potentials with its status, a potential with any other
    status is counted nowhere, so the counters never add up to more than
    the number of potentials; [total] is [data.total], or 0 when that is
    falsy.  No counters result exactly when an entry of the list is [null]
    or [undefined]. *)
Theorem newStats_counts `{Platform} (data_total : jsval)
    (potentials : list jsval) :
  (forall st,
     ScreeningLoaders.newStats data_total potentials = Some st ->
     ScreeningLoaders.pending st = status_count "pending" potentials /\
     ScreeningLoaders.toCall st = status_count "to_be_called" potentials /\
     ScreeningLoaders.interested st = status_count "interested" potentials /\
     ScreeningLoaders.waiting st = status_count "waiting_resume" potentials /\
     ScreeningLoaders.notInterested st
     = status_count "not_interested" potentials /\
     ScreeningLoaders.total st
     = (if truthy data_total then data_total else VNum 0) /\
     (ScreeningLoaders.pending st + ScreeningLoaders.toCall st
      + ScreeningLoaders.interested st + ScreeningLoaders.waiting st
      + ScreeningLoaders.notInterested st <= length potentials)%nat) /\
  (ScreeningLoaders.newStats data_total potentials = None <->
   exists p, p ∈ potentials /\ (p = VNull \/ p = VUndefined)).
Proof.
  unfold ScreeningLoaders.newStats. split; [|apply forEach_throws].
  intros st F. apply forEach_counts in F as (T & P & C & I & W & N).
  simpl in *. rewrite T, P, C, I, W, N.
  repeat (split; [done|]).
  clear. induction potentials as [|p rest IH]; [unfold status_count; simpl; lia|].
  rewrite !status_count_cons. simpl length.
  destruct (get_opt p "status") as [| | | |s| | |]; simpl; try lia.
  destruct (String.eqb_spec s "pending") as [->|]; [simpl; lia|].
  destruct (String.eqb_spec s "to_be_called") as [->|]; [simpl; lia|].
  destruct (String.eqb_spec s "interested") as [->|]; [simpl; lia|].
  destruct (String.eqb_spec s "waiting_resume") as [->|]; [simpl; lia|].
  destruct (String.eqb_spec s "not_interested") as [->|]; [simpl; lia|].
  simpl. lia.
Qed.

Lemma newStats_counts_witness :
  exists p,
    p ∈ [VObj {[ "status" := VStr "pending" ]}; VNull] /\
    (p = VNull \/ p = VUndefined).
Proof.
  apply (proj2 (@newStats_counts Samples.sample_platform (VNum 2)
                  [VObj {[ "status" := VStr "pending" ]}; VNull])).
  reflexivity.
Defined.

(* ===================================================================== *)
(** ** Dates *)
(* ===================================================================== *)

Section DateFacts.
Import DateUtils.

Lemma length_append_Z (t : string) :
  String.length (t +:+ "Z") = S (String.length t).
Proof.
  induction t as [|c t IH]; [done|].
  change (String c t +:+ "Z") with (String c (t +:+ "Z")).
  simpl. by rewrite IH.
Qed.

Lemma substring_last_Z (t : string) :
  String.substring (String.length t) 1 (t +:+ "Z") = "Z".
Proof.
  induction t as [|c t IH]; [done|].
  change (String c t +:+ "Z") with (String c (t +:+ "Z")).
  simpl. exact IH.
Qed.

Lemma endsWith_append_Z (t : string) : endsWith (t +:+ "Z") "Z" = true.
Proof.
  unfold endsWith. cbv zeta. rewrite length_append_Z. simpl String.length.
  replace (S (String.length t) - 1)%nat with (String.length t) by lia.
  rewrite substring_last_Z. reflexivity.
Qed.

Lemma parseUTCDate_string (Date_parse : string -> option Z) (t : string) :
  t <> EmptyString ->
  parseUTCDate Date_parse (Some t) = Some (Date_parse (utcTimestamp t)).
Proof.
  intros N. unfold parseUTCDate. simpl.
  by destruct (String.eqb_spec t EmptyString).
Qed.

End DateFacts.

(** X24. The text [parseUTCDate] hands to [Date] always ends in [Z]: a
    timestamp that ends in [Z] is passed as it is, any other gets one [Z]
    appended, and doing it twice changes nothing more. *)
Theorem utcTimestamp_ends_in_Z (t : string) :
  DateUtils.endsWith (DateUtils.utcTimestamp t) "Z" = true /\
  (DateUtils.endsWith t "Z" = true -> DateUtils.utcTimestamp t = t) /\
  (DateUtils.endsWith t "Z" = false -> DateUtils.utcTimestamp t = t +:+ "Z") /\
  DateUtils.utcTimestamp (DateUtils.utcTimestamp t) = DateUtils.utcTimestamp t.
Proof.
  assert (DateUtils.endsWith (DateUtils.utcTimestamp t) "Z" = true) as E.
  { unfold DateUtils.utcTimestamp.
    destruct (DateUtils.endsWith t "Z") eqn:Z; [exact Z|].
    apply endsWith_append_Z. }
  split; [exact E|]. split; [|split].
  - unfold DateUtils.utcTimestamp. by intros ->.
  - unfold DateUtils.utcTimestamp. by intros ->.
  - unfold DateUtils.utcTimestamp at 1. by rewrite E.
Qed.

Lemma utcTimestamp_ends_in_Z_witness :
  DateUtils.utcTimestamp "2024-05-01T10:00:00" = "2024-05-01T10:00:00Z".
Proof.
  apply (proj1 (proj2 (proj2 (utcTimestamp_ends_in_Z "2024-05-01T10:00:00")))).
  reflexivity.
Defined.

(** X25. For a timestamp that parses, [formatTimeAgo] depends on the
    elapsed milliseconds only: below one minute (also for a date in the
    future) it says Just now; from one minute it counts whole minutes, from
    1 to 59; from one hour whole hours, from 1 to 23; from one day whole
    days, from 1 to 6; from seven days on it prints the date.  It never
    says 0 minutes, 60 minutes, 24 hours or 7 days, and the unit is in the
    singular exactly for the count 1. *)
Theorem formatTimeAgo_buckets (Date_parse : string -> option Z)
    (toLocaleDateString : option Z -> string) (now time : Z) (t : string) :
  t <> EmptyString ->
  Date_parse (DateUtils.utcTimestamp t) = Some time ->
  let out := DateUtils.formatTimeAgo Date_parse toLocaleDateString now (Some t) in
  (now - time < 60000 -> out = "Just now") /\
  (60000 <= now - time < 3600000 ->
   1 <= (now - time) / 60000 <= 59 /\
   out = DateUtils.ago ((now - time) / 60000) "minute") /\
  (3600000 <= now - time < 86400000 ->
   1 <= (now - time) / 3600000 <= 23 /\
   out = DateUtils.ago ((now - time) / 3600000) "hour") /\
  (86400000 <= now - time < 604800000 ->
   1 <= (now - time) / 86400000 <= 6 /\
   out = DateUtils.ago ((now - time) / 86400000) "day") /\
  (604800000 <= now - time -> out = toLocaleDateString (Some time)) /\
  (forall n unit,
     DateUtils.ago n unit
     = pretty n +:+ " " +:+ unit +:+ (if decide (n = 1) then EmptyString else "s")
       +:+ " ago").
Proof.
  intros N P. simpl. unfold DateUtils.formatTimeAgo.
  rewrite (parseUTCDate_string Date_parse t N), P.
  set (e := now - time).
  assert (e / 1000 / 60 = e / 60000) as M
    by (rewrite Z.div_div by lia; reflexivity).
  assert (e / 1000 / 3600 = e / 3600000) as Hh
    by (rewrite Z.div_div by lia; reflexivity).
  assert (e / 1000 / 86400 = e / 86400000) as D
    by (rewrite Z.div_div by lia; reflexivity).
  rewrite M, Hh, D.
  assert (forall k, 0 < k -> (e / 1000 <? k) = (e <? 1000 * k)) as B.
  { intros k K. destruct (Z.ltb_spec e (1000 * k)) as [L|L].
    - apply Z.ltb_lt. apply Z.div_lt_upper_bound; lia.
    - apply Z.ltb_ge. apply Z.div_le_lower_bound; lia. }
  assert ((e / 1000 <? 0) = (e <? 0)) as B0.
  { destruct (Z.ltb_spec e 0) as [L|L].
    - apply Z.ltb_lt. apply Z.div_lt_upper_bound; lia.
    - apply Z.ltb_ge. apply Z.div_pos; lia. }
  rewrite B0, !B by lia.
  split; [|split; [|split; [|split; [|split]]]].
  - intros L.
    repeat match goal with
           | |- context [?a <? ?b] => destruct (Z.ltb_spec a b); try lia
           end; done.
  - intros [L U].
    repeat match goal with
           | |- context [?a <? ?b] => destruct (Z.ltb_spec a b); try lia
           end.
    split; [|done].
    split; [apply Z.div_le_lower_bound; lia|].
    apply Z.lt_succ_r. apply Z.div_lt_upper_bound; lia.
  - intros [L U].
    repeat match goal with
           | |- context [?a <? ?b] => destruct (Z.ltb_spec a b); try lia
           end.
    split; [|done].
    split; [apply Z.div_le_lower_bound; lia|].
    apply Z.lt_succ_r. apply Z.div_lt_upper_bound; lia.
  - intros [L U].
    repeat match goal with
           | |- context [?a <? ?b] => destruct (Z.ltb_spec a b); try lia
           end.
    split; [|done].
    split; [apply Z.div_le_lower_bound; lia|].
    apply Z.lt_succ_r. apply Z.div_lt_upper_bound; lia.
  - intros L.
    repeat match goal with
           | |- context [?a <? ?b] => destruct (Z.ltb_spec a b); try lia
           end; done.
  - intros n unit. unfold DateUtils.ago.
    destruct (Z.eqb_spec n 1); by case_decide.
Qed.

Lemma formatTimeAgo_buckets_witness :
  DateUtils.formatTimeAgo (λ _, Some 0) (λ _, "a date") 90000
    (Some "1970-01-01T00:00:00")
  = "1 minute ago".
Proof.
  assert ("1970-01-01T00:00:00" <> EmptyString) as N by discriminate.
  destruct (proj1 (proj2 (formatTimeAgo_buckets (λ _, Some 0) (λ _, "a date")
                            90000 0 "1970-01-01T00:00:00" N eq_refl)))
    as [_ E].
  - simpl. lia.
  - rewrite E. reflexivity.
Defined.

(** X26. [Unknown] is the answer for a missing or empty timestamp only.  A
    timestamp that is there but does not parse is not reported as unknown:
    [formatTimeAgo] and [formatDate] print the invalid date, whatever the
    current time. *)
Theorem formatTimeAgo_missing_or_invalid (Date_parse : string -> option Z)
    (toLocaleDateString : option Z -> string) (now : Z) :
  DateUtils.formatTimeAgo Date_parse toLocaleDateString now None = "Unknown" /\
  DateUtils.formatTimeAgo Date_parse toLocaleDateString now (Some EmptyString)
  = "Unknown" /\
  DateUtils.formatDate Date_parse toLocaleDateString None = "Unknown" /\
  DateUtils.formatDate Date_parse toLocaleDateString (Some EmptyString)
  = "Unknown" /\
  (forall t,
     t <> EmptyString ->
     Date_parse (DateUtils.utcTimestamp t) = None ->
     DateUtils.formatTimeAgo Date_parse toLocaleDateString now (Some t)
     = toLocaleDateString None /\
     DateUtils.formatDate Date_parse toLocaleDateString (Some t)
     = toLocaleDateString None).
Proof.
  repeat (split; [reflexivity|]).
  intros t N P. unfold DateUtils.formatTimeAgo, DateUtils.formatDate.
  by rewrite (parseUTCDate_string Date_parse t N), P.
Qed.

Lemma formatTimeAgo_missing_or_invalid_witness :
  DateUtils.formatTimeAgo (λ _, None) (λ _, "Invalid Date") 5 (Some "soon")
  = "Invalid Date".
Proof.
  assert ("soon" <> EmptyString) as N by discriminate.
  exact (proj1 (proj2 (proj2 (proj2 (proj2
           (formatTimeAgo_missing_or_invalid (λ _, None) (λ _, "Invalid Date") 5))))
           "soon" N eq_refl)).
Defined.
